(** * WiFi Dead Zone Mapper: coverage analysis, probe conversion and loading

    A shallow embedding of [wifi_visualizer.py] and [wifi_mapper.py].

    - A data point is the JSON object written by the collection phase.
      [signal_dbm] is a Python [int] (a [Z]); [x] and [y] are JSON
      numbers, an [int] or a finite [float], each held by its exact value,
      a rational.
    - Arithmetic on floats is IEEE 754 binary64, computed with the
      reference operations of [SpecFloat]: the conversion of the signal
      probe, and the bounds and the lattice handed to the interpolation.
    - [scipy.interpolate.griddata] is library code: it is a parameter of
      the functions that call it, and may raise.
    - List comprehensions are [filter]s over the sample list, [len] is
      [length], [sorted(..)[:3]] is a stable sort followed by [take 3]. *)

From Stdlib Require Import ZArith QArith Lia Lqa.
From Stdlib Require Import Floats.SpecFloat.
From stdpp Require Import base list gmap strings pretty sorting.

Local Open Scope Z_scope.

(** ** The data model *)

(** One element of the JSON array of [wifi_data.json]. *)
Record point := Point {
  timestamp : string;
  signal_dbm : Z;
  x : Q;
  y : Q;
  room : option string
}.

(** * Python built-ins used by the two scripts *)

Module Py.

(** [min(l)] and [max(l)]: the first smallest (largest) item under the
    items' [<]; [ValueError] on an empty list. *)
Definition min_by {A : Type} (lt : A → A → bool) (l : list A) : option A :=
  match l with
  | [] => None
  | v :: l' => Some (foldl (λ m w, if lt w m then w else m) v l')
  end.

Definition max_by {A : Type} (lt : A → A → bool) (l : list A) : option A :=
  match l with
  | [] => None
  | v :: l' => Some (foldl (λ m w, if lt m w then w else m) v l')
  end.

Definition Qltb (a b : Q) : bool := negb (Qle_bool b a).

Definition min_int : list Z → option Z := min_by Z.ltb.
Definition max_int : list Z → option Z := max_by Z.ltb.
Definition min_num : list Q → option Q := min_by Qltb.
Definition max_num : list Q → option Q := max_by Qltb.

(** *** [float]: IEEE 754 binary64, round to nearest even *)

Definition prec : Z := 53.
Definition emax : Z := 1024.

(** [float(n)] for an [int] [n], as in [n * f] and [n + f]. *)
Definition float_of_int (n : Z) : spec_float :=
  binary_normalize prec emax n 0 false.

Definition float_add : spec_float → spec_float → spec_float := SFadd prec emax.
Definition float_sub : spec_float → spec_float → spec_float := SFsub prec emax.
Definition float_mul : spec_float → spec_float → spec_float := SFmul prec emax.
Definition float_div : spec_float → spec_float → spec_float := SFdiv prec emax.

(** The integer [n] as an unrounded mantissa with exponent 0. *)
Definition unrounded (n : Z) : spec_float :=
  match n with
  | Z0 => S754_zero false
  | Zpos m => S754_finite false m 0
  | Zneg m => S754_finite true m 0
  end.

(** The float nearest to the number [v], ties to even: [v] itself when
    [v] is a float, and what an [int] becomes where a float is wanted. *)
Definition float_of_num (v : Q) : spec_float :=
  SFdiv prec emax (unrounded (Qnum v)) (unrounded (Z.pos (Qden v))).

(** [a / b] on two [int]s: the quotient rounded once; [ZeroDivisionError]
    for [b = 0], [OverflowError] when the quotient exceeds the floats. *)
Definition true_div (a b : Z) : option spec_float :=
  if bool_decide (b = 0) then None
  else match SFdiv prec emax (unrounded a) (unrounded b) with
       | S754_infinity _ => None
       | q => Some q
       end.

(** [int(f)]: truncation toward zero; an exception on infinities and
    NaN. *)
Definition int_of_float (f : spec_float) : option Z :=
  match f with
  | S754_zero _ => Some 0
  | S754_finite s m e =>
      Some (cond_Zopp s (if bool_decide (0 <= e) then Z.pos m * 2 ^ e
                         else Z.pos m `div` 2 ^ (- e)))
  | S754_infinity _ | S754_nan => None
  end.

Section Sorted.
Context {A : Type} (key : A → Z).

(** [must_precede reverse a b]: an item of key [a] has to be moved in
    front of an earlier item of key [b]. *)
Definition must_precede (reverse : bool) (a b : Z) : Prop :=
  if reverse then b < a else a < b.

Global Instance must_precede_dec r a b : Decision (must_precede r a b).
Proof. destruct r; simpl; apply _. Defined.

(** [v] stood before every item of the sorted list [l]: it passes
    only the items that must precede it. *)
Fixpoint insert_stable (reverse : bool) (v : A) (l : list A) : list A :=
  match l with
  | [] => [v]
  | w :: l' =>
      if decide (must_precede reverse (key w) (key v))
      then w :: insert_stable reverse v l'
      else v :: w :: l'
  end.

(** [sorted(l, key=key, reverse=reverse)]. The built-in is a stable sort,
    with [reverse=True] too: items of equal key keep their order. *)
Definition sorted (l : list A) (reverse : bool) : list A :=
  foldr (insert_stable reverse) [] l.
End Sorted.

End Py.

(** * wifi_mapper.py *)

Module Mapper.

(** What one platform utility gave: its parsed output, or nothing when
    the call ended in [TimeoutExpired] or [FileNotFoundError], which the
    [except] clause swallows. *)
Inductive utility (A : Type) :=
| Output (scan : A)
| Unavailable.
Global Arguments Output {A} scan.
Global Arguments Unavailable {A}.

(** The two searches over the output of [iwconfig]. *)
Record iwconfig_scan := IwconfigScan {
  signal_level : option Z;        (* Signal level[=:](-?\d+) *)
  link_quality : option (Z * Z)   (* Link Quality[=:](\d+)/(\d+) *)
}.

(** What a call of [get_wifi_signal_strength] ends in. *)
Inductive reading :=
| Dbm (signal : Z)    (* return int(...) *)
| NoReading           (* return None *)
| Uncaught.           (* an exception no [except] clause names *)

(** [int(-100 + (quality / max_quality) * 70)] *)
Definition approximate_dbm (quality max_quality : Z) : option Z :=
  q ← Py.true_div quality max_quality;
  Py.int_of_float
    (Py.float_add (Py.float_of_int (-100)) (Py.float_mul q (Py.float_of_int 70))).

Definition reading_of (signal_dbm : option Z) : reading :=
  match signal_dbm with
  | Some v => Dbm v
  | None => Uncaught
  end.

(** The third [try] block: [netsh], the match of [Signal\s*:\s*(\d+)%]. *)
Definition try_windows (netsh : utility (option Z)) : reading :=
  match netsh with
  | Output (Some percentage) => reading_of (approximate_dbm percentage 100)
  | Output None | Unavailable => NoReading
  end.

(** The second [try] block: [airport -I], the match of
    [agrCtlRSSI: (-?\d+)]. *)
Definition try_macos (airport : utility (option Z))
    (netsh : utility (option Z)) : reading :=
  match airport with
  | Output (Some rssi) => Dbm rssi
  | Output None | Unavailable => try_windows netsh
  end.

Definition get_wifi_signal_strength (iwconfig : utility iwconfig_scan)
    (airport : utility (option Z)) (netsh : utility (option Z)) : reading :=
  match iwconfig with
  | Output scan =>
      match signal_level scan with
      | Some level => Dbm level
      | None =>
          match link_quality scan with
          | Some (quality, max_quality) =>
              reading_of (approximate_dbm quality max_quality)
          | None => try_macos airport netsh
          end
      end
  | Unavailable => try_macos airport netsh
  end.

(** The [if]/[elif] chain of [collect_data] that picks the quality word
    printed after each logged point. *)
Definition quality (signal : Z) : string :=
  if bool_decide (signal >= -50) then "Excellent"
  else if bool_decide (signal >= -60) then "Good"
  else if bool_decide (signal >= -70) then "Fair"
  else "Poor".

(** ** The collection session *)

(** What lies outside the script: the output of the three utilities at the
    n-th probe, the clock at the n-th reading, and the string built-ins
    [float(s)] (nothing on [ValueError]), [s.strip()] and [s.lower()]. *)
Record environment := Environment {
  utilities : nat → utility iwconfig_scan * utility (option Z) * utility (option Z);
  now : nat → string;
  float : string → option Q;
  strip : string → string;
  lower : string → string
}.

(** What reaches the terminal. *)
Inductive output :=
| Say (line : string)                                     (* print(line) *)
| Ask (prompt : string)                                   (* the prompt of input(prompt) *)
| SayLogged (signal : Z) (quality : string) (px py : Q).  (* the "Logged" line *)

(** The lines still to be typed, the probes and clock readings made so
    far, the dataset files, and the terminal. *)
Record world := World {
  stdin : list string;
  probe_calls : nat;
  clock_reads : nat;
  disk : gmap string (list point);
  screen : list output
}.

(** [EOFError] when the input ends; [ArithmeticError] for the
    [ZeroDivisionError] or [OverflowError] that leaves the probe. *)
Inductive exn := EOFError | ArithmeticError.

(** How a piece of the session ends. [Unfinished] belongs to the model
    only: the turns granted to the loop were used up. *)
Inductive result (A : Type) :=
| Returned (v : A)
| Raised (e : exn)
| Unfinished.
Global Arguments Returned {A} v.
Global Arguments Raised {A} e.
Global Arguments Unfinished {A}.

Definition session (A : Type) : Type := world → result A * world.

Global Instance session_ret : MRet session := λ A v w, (Returned v, w).
Global Instance session_bind : MBind session := λ A B k m w,
  match m w with
  | (Returned v, w') => k v w'
  | (Raised e, w') => (Raised e, w')
  | (Unfinished, w') => (Unfinished, w')
  end.

Definition show (o : output) : session unit := λ w,
  (Returned tt, World (stdin w) (probe_calls w) (clock_reads w) (disk w)
                      (screen w ++ [o])).

Definition say (line : string) : session unit := show (Say line).

(** [input(prompt)] *)
Definition input (prompt : string) : session string := λ w,
  match stdin w with
  | [] =>
      (Raised EOFError,
       World [] (probe_calls w) (clock_reads w) (disk w) (screen w ++ [Ask prompt]))
  | line :: rest =>
      (Returned line,
       World rest (probe_calls w) (clock_reads w) (disk w) (screen w ++ [Ask prompt]))
  end.

(** [with open(data_file, 'w') as f: json.dump(data_points, f, indent=2)] *)
Definition dump (data_file : string) (data_points : list point) : session unit :=
  λ w,
    (Returned tt,
     World (stdin w) (probe_calls w) (clock_reads w)
           (<[data_file := data_points]> (disk w)) (screen w)).

(** The dataset under [data_file], when [Path(data_file).exists()]. *)
Definition stored (data_file : string) : session (option (list point)) :=
  λ w, (Returned (disk w !! data_file), w).

Definition newline : string := String (Ascii.ascii_of_nat 10) EmptyString.

Definition rule : string :=
  "============================================================".

Section Session.

Variable env : environment.

(** A call of [get_wifi_signal_strength()] in the session. *)
Definition probe : session (option Z) := λ w,
  let '(iwconfig, airport, netsh) := utilities env (probe_calls w) in
  let w' := World (stdin w) (S (probe_calls w)) (clock_reads w) (disk w) (screen w) in
  match get_wifi_signal_strength iwconfig airport netsh with
  | Dbm signal => (Returned (Some signal), w')
  | NoReading => (Returned None, w')
  | Uncaught => (Raised ArithmeticError, w')
  end.

(** [datetime.now().isoformat()] *)
Definition timestamp_now : session string := λ w,
  (Returned (now env (clock_reads w)),
   World (stdin w) (probe_calls w) (S (clock_reads w)) (disk w) (screen w)).

Definition get_manual_position : session (Q * Q) :=
  say (newline +:+ "--- Enter your current position ---");;
  say "Use a reference point (e.g., front door = 0,0)";;
  first ← input "X coordinate (meters from reference): ";
  match float env first with
  | None => say "Invalid input. Using (0, 0)";; mret (0%Q, 0%Q)
  | Some px =>
      second ← input "Y coordinate (meters from reference): ";
      match float env second with
      | None => say "Invalid input. Using (0, 0)";; mret (0%Q, 0%Q)
      | Some py => mret (px, py)
      end
  end.

(** The [while True] loop of [collect_data], for at most [turns] turns. *)
Fixpoint collect_loop (turns : nat) (data_file : string)
    (data_points : list point) (point_num : nat) : session (list point) :=
  match turns with
  | O => λ w, (Unfinished, w)
  | S turns' =>
      let log (signal : Z) : session (list point) :=
        '(px, py) ← get_manual_position;
        answer ← input "Room/Area name (optional): ";
        let room := strip env answer in
        stamp ← timestamp_now;
        let data_point :=
          Point stamp signal px py
                (if bool_decide (room = "") then None else Some room) in
        let data_points := data_points ++ [data_point] in
        show (SayLogged signal (quality signal) px py);;
        dump data_file data_points;;
        collect_loop turns' data_file data_points (S point_num) in
      let continue : session (list point) :=
        collect_loop turns' data_file data_points point_num in
      line ← input (newline +:+ "Point #" +:+ pretty point_num
                    +:+ " - Press Enter to log signal (or 'done' to finish): ");
      let user_input := lower env (strip env line) in
      if bool_decide (user_input = "done") then mret data_points
      else
        signal ← probe;
        match signal with
        | Some signal => log signal
        | None =>
            say "⚠️  Could not detect WiFi signal. Make sure you're connected to WiFi.";;
            answer ← input "Try again? (y/n): ";
            let retry := lower env (strip env answer) in
            if bool_decide (retry ≠ "y") then continue
            else
              signal ← probe;
              match signal with
              | None =>
                  say "Still no signal detected. Skipping this point.";;
                  continue
              | Some signal => log signal
              end
        end
  end.

(** One turn more than the lines still to be typed: every turn reads at
    least one line. *)
Definition turns_left : session nat := λ w, (Returned (S (length (stdin w))), w).

Definition collect_data (data_file : string) : session (list point) :=
  say rule;;
  say "WiFi Dead Zone Mapper - Data Collection Mode";;
  say rule;;
  say (newline +:+ "Instructions:");;
  say "1. Choose a reference point in your home (e.g., front door)";;
  say "2. Walk to different locations";;
  say "3. Press Enter at each location to log the signal";;
  say "4. Enter your position relative to the reference point";;
  say ("5. Type 'done' when finished" +:+ newline);;
  existing ← stored data_file;
  data_points ←
    match existing with
    | Some data =>
        say ("Loaded " +:+ pretty (length data) +:+ " existing data points."
             +:+ newline);;
        mret data
    | None => mret []
    end;
  turns ← turns_left;
  data_points ← collect_loop turns data_file data_points (S (length data_points));
  say (newline +:+ "✓ Collected " +:+ pretty (length data_points)
       +:+ " total data points");;
  say ("✓ Data saved to " +:+ data_file);;
  mret data_points.

(** [main] of the collection script. *)
Definition main : session unit :=
  say (newline +:+ "Checking WiFi connection...");;
  signal ← probe;
  match signal with
  | None =>
      say "⚠️  Warning: Could not detect WiFi signal.";;
      say "Make sure you are connected to a WiFi network.";;
      say (newline +:+ "Supported systems: Linux (iwconfig), macOS (airport), Windows (netsh)")
  | Some signal =>
      say ("✓ WiFi detected: " +:+ pretty signal +:+ " dBm" +:+ newline)
  end;;
  collect_data "wifi_data.json";;
  mret tt.

End Session.

End Mapper.

(** * wifi_visualizer.py *)

Module Visualizer.

(** The five rows of the "Signal Quality Breakdown". *)
Inductive band := Excellent | Good | Fair | Poor | VeryPoor.

Global Instance band_eq_dec : EqDecision band.
Proof. solve_decision. Defined.

Definition bands : list band := [Excellent; Good; Fair; Poor; VeryPoor].

(** The word that starts each printed row. *)
Definition band_label (b : band) : string :=
  match b with
  | Excellent => "Excellent"
  | Good => "Good"
  | Fair => "Fair"
  | Poor => "Poor"
  | VeryPoor => "Very Poor"
  end.

(** The condition of the comprehension counted on each row. *)
Definition in_band (b : band) (s : Z) : Prop :=
  match b with
  | Excellent => s >= -50
  | Good => -60 <= s < -50
  | Fair => -70 <= s < -60
  | Poor => -80 <= s < -70
  | VeryPoor => s < -80
  end.

Global Instance in_band_dec b s : Decision (in_band b s).
Proof. destruct b; simpl; apply _. Defined.

(** The rows on which a signal value is counted. *)
Definition classify (s : Z) : list band :=
  filter (λ b, in_band b s) bands.

(** [len([p for p in data if <row condition>])] *)
Definition band_count (b : band) (data : list point) : nat :=
  length (filter (λ p, in_band b (signal_dbm p)) data).

Definition breakdown (data : list point) : list (band * nat) :=
  (λ b, (b, band_count b data)) <$> bands.

(** [[point for point in data if point['signal_dbm'] < threshold]] *)
Definition dead_zones (data : list point) (threshold : Z) : list point :=
  filter (λ p, signal_dbm p < threshold) data.

(** [[point for point in data if point['signal_dbm'] >= -60]] *)
Definition good_zones (data : list point) : list point :=
  filter (λ p, signal_dbm p >= -60) data.

(** What [analyze_dead_zones] reports: the two zone lists, the five
    counts, and the "Best coverage areas" lines. *)
Record analysis := Analysis {
  report_threshold : Z;
  report_breakdown : list (band * nat);
  report_dead_zones : list point;
  report_best_coverage : list point
}.

(** The lines printed under "Best coverage areas": nothing when
    [good_zones] is empty, else
    [sorted(good_zones, key=lambda x: x['signal_dbm'], reverse=True)[:3]]. *)
Definition best_coverage (data : list point) : list point :=
  match good_zones data with
  | [] => []
  | _ :: _ => take 3 (Py.sorted signal_dbm (good_zones data) true)
  end.

Definition analyze_dead_zones (data : list point) (threshold : Z) : analysis :=
  {| report_threshold := threshold;
     report_breakdown := breakdown data;
     report_dead_zones := dead_zones data threshold;
     report_best_coverage := best_coverage data |}.

(** ** numpy *)

(** [np.linspace(start, stop, num)] on float64: the array
    [arange(num) * step + start] with [step = (stop - start) / (num - 1)],
    each operation rounded, and the last item set to [stop]; numpy
    computes [(i / (num - 1)) * (stop - start)] instead when the step is
    zero, and multiplies by [stop - start] when [num < 2]. *)
Definition linspace (start stop : spec_float) (num : nat) : list spec_float :=
  let div := Py.float_of_int (Z.of_nat (num - 1)) in
  let delta := Py.float_sub stop start in
  let y := (λ i : nat, Py.float_of_int (Z.of_nat i)) <$> seq 0 num in
  let y :=
    if bool_decide (1 < num)%nat then
      let step := Py.float_div delta div in
      if SFeqb step (S754_zero false)
      then (λ v, Py.float_mul (Py.float_div v div) delta) <$> y
      else (λ v, Py.float_mul v step) <$> y
    else (λ v, Py.float_mul v delta) <$> y in
  let y := (λ v, Py.float_add v start) <$> y in
  if bool_decide (1 < num)%nat then <[(num - 1)%nat := stop]> y else y.

(** [np.meshgrid(xs, ys)]: two arrays of [len(ys)] rows and [len(xs)]
    columns, the first repeating [xs] in every row, the second repeating
    one item of [ys] along each row. *)
Definition meshgrid (xs ys : list spec_float)
    : list (list spec_float) * list (list spec_float) :=
  (replicate (length ys) xs, (λ v, replicate (length xs) v) <$> ys).

(** ** Console output and image files *)

(** The float64 arrays handed to the renderer. *)
Record surface := Surface {
  grid_x : list (list spec_float);
  grid_y : list (list spec_float);
  grid_signal : list (list spec_float)
}.

Inductive event :=
| Stdout (line : string)
| Report (r : analysis)                       (* the block of [analyze_dead_zones] *)
| SaveFig (output_file : string) (fig : surface).  (* [plt.savefig] *)

(** A run: what it printed and saved, and its value; no value when an
    exception ended it. *)
Record io (A : Type) := IO { console : list event; outcome : option A }.
Global Arguments IO {A} console outcome.
Global Arguments console {A} _.
Global Arguments outcome {A} _.

Global Instance io_ret : MRet io := λ A v, IO [] (Some v).
Global Instance io_bind : MBind io := λ A B k m,
  match outcome m with
  | Some v => let rest := k v in IO (console m ++ console rest) (outcome rest)
  | None => IO (console m) None
  end.

Definition emit (e : event) : io unit := IO [e] (Some tt).
Definition print (line : string) : io unit := emit (Stdout line).
(** A call that returns or raises. *)
Definition call {A : Type} (r : option A) : io A := IO [] r.

Definition nl : string := String (Ascii.ascii_of_nat 10) EmptyString.

(** [load_data]. The disk is a map from paths to the sample lists that
    [json.load] reads from the dataset files. *)
Definition load_data (fs : gmap string (list point)) (data_file : string)
    : io (option (list point)) :=
  match fs !! data_file with
  | None =>
      print ("Error: " +:+ data_file +:+ " not found.");;
      print "Run wifi_mapper.py first to collect data.";;
      mret None
  | Some data =>
      if bool_decide (length data = 0%nat) then
        print "No data points found in file.";;
        mret None
      else mret (Some data)
  end.

Record args := Args {
  arg_data : string;
  arg_output : string;
  arg_3d : bool;
  arg_threshold : Z
}.

Section Scipy.

(** [scipy.interpolate.griddata(points, values, xi, method, fill_value)]:
    the interpolated float64 array, or nothing when it raises. *)
Variable griddata :
  list Q * list Q → list Z →
  list (list spec_float) * list (list spec_float) → string → Z →
  option (list (list spec_float)).

(** The grid of [create_heatmap] and of [create_3d_visualization].
    [min(x_coords) - 1] is exact on an [int], which numpy then takes as a
    float, and is rounded on a float: either way [np.linspace] starts from
    the float nearest to the exact difference. *)
Definition interpolate (data : list point) (resolution : nat) : io surface :=
  let x_coords := x <$> data in
  let y_coords := y <$> data in
  let signals := signal_dbm <$> data in
  x_lo ← call (Py.min_num x_coords);
  x_hi ← call (Py.max_num x_coords);
  let x_min := Py.float_of_num (x_lo - 1)%Q in
  let x_max := Py.float_of_num (x_hi + 1)%Q in
  y_lo ← call (Py.min_num y_coords);
  y_hi ← call (Py.max_num y_coords);
  let y_min := Py.float_of_num (y_lo - 1)%Q in
  let y_max := Py.float_of_num (y_hi + 1)%Q in
  let '(grid_x, grid_y) :=
    meshgrid (linspace x_min x_max resolution)
             (linspace y_min y_max resolution) in
  fill_value ← call (Py.min_int signals);
  grid_signal ←
    call (griddata (x_coords, y_coords) signals (grid_x, grid_y) "cubic" fill_value);
  mret (Surface grid_x grid_y grid_signal).

(** The drawing calls between the interpolation and [plt.savefig] belong
    to the renderer and are taken to return. *)
Definition create_heatmap (data : list point) (output_file : string)
    (resolution : nat) : io surface :=
  let signals := signal_dbm <$> data in
  print ("Creating heat map from " +:+ pretty (length data) +:+ " data points...");;
  lo ← call (Py.min_int signals);
  hi ← call (Py.max_int signals);
  print ("Signal range: " +:+ pretty lo +:+ " to " +:+ pretty hi +:+ " dBm");;
  fig ← interpolate data resolution;
  emit (SaveFig output_file fig);;
  print ("âœ“ Heat map saved to " +:+ output_file);;
  mret fig.

Definition create_3d_visualization (data : list point) (output_file : string)
    : io surface :=
  fig ← interpolate data 50;
  emit (SaveFig output_file fig);;
  print ("âœ“ 3D visualization saved to " +:+ output_file);;
  mret fig.

Definition main (a : args) (fs : gmap string (list point)) : io unit :=
  loaded ← load_data fs (arg_data a);
  match loaded with
  | None => mret tt
  | Some data =>
      emit (Report (analyze_dead_zones data (arg_threshold a)));;
      create_heatmap data (arg_output a) 100;;
      (if arg_3d a then create_3d_visualization data "wifi_3d.png";; mret tt
       else mret tt);;
      print (nl +:+ "âœ“ Visualization complete!");;
      print ("  View your heat map: " +:+ arg_output a)
  end.

End Scipy.

(** ** The reference marks of the colorbar *)

(** [quality_levels], in the order the loop visits it. *)
Definition quality_levels : list (Z * string) :=
  [(-50, "Excellent"); (-60, "Good"); (-70, "Fair"); (-80, "Poor")].

(** The levels at which [create_heatmap] draws a dashed line and a label:
    those with [min(signals) <= level <= max(signals)]; [ValueError] on no
    signal. *)
Definition reference_marks (signals : list Z) : option (list (Z * string)) :=
  lo ← Py.min_int signals;
  hi ← Py.max_int signals;
  Some (filter (λ mark, lo <= mark.1 ∧ mark.1 <= hi) quality_levels).

End Visualizer.

Import Visualizer.

(** * Vocabulary of the statements *)

(** A sample at integer coordinates, without room label. *)
Definition pt (s : Z) (a b : Z) : point :=
  Point "" s (inject_Z a) (inject_Z b) None.

(** The order of a sorted result: no later item has to precede an earlier
    one. *)
Definition in_order {A : Type} (key : A → Z) (reverse : bool) (v w : A) : Prop :=
  ¬ Py.must_precede reverse (key w) (key v).

(** The rational [q] cut at its integer part, toward zero. *)
Definition truncate (q : Q) : Z := Z.quot (Qnum q) (Z.pos (Qden q)).



(** The two ways the load precondition fails. *)
Inductive load_failure := NotFoundError | EmptyDatasetError.

Definition load_precondition (fs : gmap string (list point)) (data_file : string)
    : option load_failure :=
  match fs !! data_file with
  | None => Some NotFoundError
  | Some [] => Some EmptyDatasetError
  | Some (_ :: _) => None
  end.

(** The lines the user reads on each failure. *)
Definition failure_report (e : load_failure) (data_file : string) : list event :=
  match e with
  | NotFoundError =>
      [Stdout ("Error: " +:+ data_file +:+ " not found.");
       Stdout "Run wifi_mapper.py first to collect data."]
  | EmptyDatasetError => [Stdout "No data points found in file."]
  end.

(** The image files a run wrote. *)
Definition saved_images (trace : list event) : list string :=
  omap (λ e, match e with SaveFig output_file _ => Some output_file | _ => None end)
       trace.

(** An interpolator that answers the fill value everywhere. *)
Definition flat_griddata (points : list Q * list Q) (values : list Z)
    (xi : list (list spec_float) * list (list spec_float)) (method : string)
    (fill_value : Z) : option (list (list spec_float)) :=
  Some ((λ row : list spec_float,
           (λ _ : spec_float, Py.float_of_int fill_value) <$> row) <$> fst xi).

(** ** Tables of the probe *)

(** Every quality on every scale from 1 to 100. *)
Definition scales : list (Z * Z) :=
  m ← seqZ 1 100; (λ q, (q, m)) <$> seqZ 0 (m + 1).

(** The reading of [q] on the scale [m] is at least the exact
    [70*q/m - 100] and less than 2 above it. *)
Definition close_to_exact (qm : Z * Z) : bool :=
  match Mapper.approximate_dbm qm.1 qm.2 with
  | Some v =>
      (70 * qm.1 - 100 * qm.2 <=? qm.2 * v)
      && (qm.2 * v <? 70 * qm.1 - 100 * qm.2 + 2 * qm.2)
  | None => false
  end.


(** The reading does not fall from [q] to [q + 1]. *)
Definition steps_up (qm : Z * Z) : bool :=
  match Mapper.approximate_dbm qm.1 qm.2, Mapper.approximate_dbm (qm.1 + 1) qm.2 with
  | Some v, Some v' => v <=? v'
  | _, _ => false
  end.

(** The quality word of a percentage. *)
Definition percentage_label (pct : Z) : string :=
  if bool_decide (71 <= pct) then "Excellent"
  else if bool_decide (56 <= pct) then "Good"
  else if bool_decide (42 <= pct) then "Fair"
  else "Poor".

(** ** Vocabulary of the collection session *)

Definition is_logged (o : Mapper.output) : bool :=
  match o with
  | Mapper.SayLogged _ _ _ _ => true
  | _ => false
  end.

(** The number of "Logged" lines among what the terminal shows. *)
Definition logged_lines (shown : list Mapper.output) : nat :=
  length (filter (λ o, Is_true (is_logged o)) shown).

(** The [n]-th probe of the session reads [signal]. *)
Definition probed (env : Mapper.environment) (n : nat) (signal : Z) : Prop :=
  let '(iwconfig, airport, netsh) := Mapper.utilities env n in
  Mapper.get_wifi_signal_strength iwconfig airport netsh = Mapper.Dbm signal.

(** What a stretch of the session from [w] did when it left the world
    [out.2] with the outcome [out.1], having started with the points
    [before] and granted [turns] turns: it logged the points [added]. *)
Definition growth (env : Mapper.environment) (turns : nat) (data_file : string)
    (before : list point) (w : Mapper.world)
    (out : Mapper.result (list point) * Mapper.world) (added : list point) : Prop :=
  Mapper.disk out.2
    = match added with
      | [] => Mapper.disk w
      | _ :: _ => <[data_file := before ++ added]> (Mapper.disk w)
      end ∧
  (∀ res, out.1 = Mapper.Returned res → res = before ++ added) ∧
  (out.1 = Mapper.Unfinished →
   (turns + length (Mapper.stdin out.2) ≤ length (Mapper.stdin w))%nat) ∧
  Mapper.stdin out.2 `suffix_of` Mapper.stdin w ∧
  (3 * length added + length (Mapper.stdin out.2) ≤ length (Mapper.stdin w))%nat ∧
  Mapper.screen w `prefix_of` Mapper.screen out.2 ∧
  logged_lines (Mapper.screen out.2)
    = (logged_lines (Mapper.screen w) + length added)%nat ∧
  Mapper.clock_reads out.2 = (Mapper.clock_reads w + length added)%nat ∧
  timestamp <$> added
    = Mapper.now env <$> seq (Mapper.clock_reads w) (length added) ∧
  Forall (λ p, room p ≠ Some "") added ∧
  (Mapper.probe_calls w + length added ≤ Mapper.probe_calls out.2)%nat ∧
  Forall (λ p, ∃ n, (Mapper.probe_calls w ≤ n < Mapper.probe_calls out.2)%nat
                    ∧ probed env n (signal_dbm p)) added.

(** An environment for worked sessions: [iwconfig] reports the link
    quality 10*n/70 at the n-th probe, the clock shows the number of the
    reading, only the words 1 and 2 are numbers, and no typed line has
    blanks or capitals to remove. *)
Definition plain_env : Mapper.environment :=
  Mapper.Environment
    (λ n, (Mapper.Output (Mapper.IwconfigScan None (Some (Z.of_nat (10 * n), 70))),
           Mapper.Unavailable, Mapper.Unavailable))
    (λ n, "t" +:+ pretty n)
    (λ s, if bool_decide (s = "1") then Some 1%Q
          else if bool_decide (s = "2") then Some 2%Q else None)
    (λ s, s) (λ s, s).

(** A session of one point: Enter, the position 1, 2, the room, and the
    word done, on an empty disk. *)
Definition kitchen_session : Mapper.world :=
  Mapper.World [""; "1"; "2"; "kitchen"; "done"] 0 0 ∅ [].

Definition kitchen_point : point :=
  Point "t0" (-100) 1 2 (Some "kitchen").

(** * Worked inputs *)

Example classify_m51 : classify (-51) = [Good].
Proof. reflexivity. Qed.

Example classify_m90 : classify (-90) = [VeryPoor].
Proof. reflexivity. Qed.

Example scenario_three :
  let data := [pt (-40) 0 0; pt (-70) 5 0; pt (-55) 0 5] in
  dead_zones data (-75) = [] ∧
  signal_dbm <$> good_zones data = [-40; -55] ∧
  signal_dbm <$> best_coverage data = [-40; -55].
Proof. vm_compute. repeat split; reflexivity. Qed.

(** A whole run over three samples: the report, then one image. *)
Example main_three_samples :
  let data := [pt (-40) 0 0; pt (-70) 5 0; pt (-55) 0 5] in
  let run := main flat_griddata (Args "wifi_data.json" "wifi_heatmap.png" false (-75))
                  {[ "wifi_data.json" := data ]} in
  outcome run = Some () ∧
  saved_images (console run) = ["wifi_heatmap.png"] ∧
  head (console run) = Some (Report (analyze_dead_zones data (-75))).
Proof. vm_compute. repeat split; reflexivity. Qed.

(** The lattice is made of floats: the second of the 100 values from -1
    to 6 is -4185163290081673 / 2^52, not -92/99. *)
Example linspace_second_of_100 :
  linspace (Py.float_of_int (-1)) (Py.float_of_int 6) 100 !! 1%nat
  = Some (S754_finite true 8370326580163346 (-53)).
Proof. vm_compute. reflexivity. Qed.

(** The heat map of three samples with [x] and [y] from 0 to 5: 100 rows
    of 100 values, from -1 in the first column to 6 in the last. *)
Example lattice_three_samples :
  let data := [pt (-40) 0 0; pt (-70) 5 0; pt (-55) 0 5] in
  (λ fig, (length (grid_x fig), length <$> grid_x fig !! 0%nat,
           grid_x fig !! 0%nat ≫= (.!! 0%nat), grid_x fig !! 0%nat ≫= (.!! 99%nat)))
    <$> outcome (interpolate flat_griddata data 100)
  = Some (100%nat, Some 100%nat,
          Some (Py.float_of_int (-1)), Some (Py.float_of_int 6)).
Proof. vm_compute. reflexivity. Qed.

(** Where neighbouring floats are 2 apart the margin of 1 is rounded
    away: for a sample at [x = 2^53] the lattice ends at [2^53 + 1]
    rounded, which is [2^53] again. *)
Example margin_rounded_away :
  Py.float_of_num (inject_Z (2 ^ 53) + 1)%Q = Py.float_of_num (inject_Z (2 ^ 53)).
Proof. vm_compute. reflexivity. Qed.

(** * The coverage classifier *)

Section Classifier.

Implicit Types (s : Z) (b : band) (p : point) (data : list point).

Lemma in_band_unique s b b' : in_band b s → in_band b' s → b = b'.
Proof. destruct b, b'; simpl; intros; first [reflexivity | lia]. Qed.

Lemma in_band_total s : ∃ b, in_band b s.
Proof.
  destruct (decide (s >= -50)); [by exists Excellent|].
  destruct (decide (s >= -60)); [exists Good; simpl; lia|].
  destruct (decide (s >= -70)); [exists Fair; simpl; lia|].
  destruct (decide (s >= -80)); [exists Poor; simpl; lia|].
  exists VeryPoor; simpl; lia.
Qed.

Lemma classify_in_band s b : classify s = [b] ↔ in_band b s.
Proof.
  unfold classify, bands. rewrite !filter_cons, filter_nil.
  destruct b; simpl; repeat case_decide; simpl in *;
    split; intros; first [lia | done].
Qed.

(** Each sample adds one to exactly one of the five counts. *)
Lemma breakdown_cons p data :
  sum_list (snd <$> breakdown (p :: data)) = S (sum_list (snd <$> breakdown data)).
Proof.
  unfold breakdown, bands, band_count; simpl.
  rewrite !filter_cons.
  repeat case_decide; simpl in *; lia.
Qed.

Lemma breakdown_total data : sum_list (snd <$> breakdown data) = length data.
Proof.
  induction data as [|p data IH]; [reflexivity|].
  rewrite breakdown_cons, IH. reflexivity.
Qed.

(** C1: every signal value lies in exactly one of the five bands, whose
    bounds are Excellent s >= -50, Good -60 <= s < -50, Fair
    -70 <= s < -60, Poor -80 <= s < -70 and Very Poor s < -80; and the
    five counts of the breakdown, taken over all samples, add up to the
    number of samples. *)
Theorem bands_partition_signals :
  (∀ s, ∃ b, classify s = [b] ∧ in_band b s ∧ ∀ b', in_band b' s → b' = b) ∧
  (∀ s, (classify s = [Excellent] ↔ -50 <= s) ∧
        (classify s = [Good] ↔ -60 <= s < -50) ∧
        (classify s = [Fair] ↔ -70 <= s < -60) ∧
        (classify s = [Poor] ↔ -80 <= s < -70) ∧
        (classify s = [VeryPoor] ↔ s < -80)) ∧
  (∀ data (t : Z),
      report_breakdown (analyze_dead_zones data t) = breakdown data ∧
      fst <$> breakdown data = bands ∧
      sum_list (snd <$> breakdown data) = length data).
Proof.
  split; [|split].
  - intros s. destruct (in_band_total s) as [b Hb]. exists b.
    split; [by apply classify_in_band|]. split; [done|].
    intros b' Hb'. by apply (in_band_unique s).
  - intros s. rewrite !classify_in_band. simpl. repeat split; lia.
  - intros data t. repeat split. apply breakdown_total.
Qed.

(** C10: the quality word printed while collecting is one of four, and
    it is "Poor" for every signal below -70; it is the label of the band
    the visualizer counts the signal in exactly when the signal is at
    least -80, and below -80 the collector says "Poor" where the
    visualizer says "Very Poor". *)
Theorem collection_label_differs_below_m80 s :
  Mapper.quality s ∈ ["Excellent"; "Good"; "Fair"; "Poor"] ∧
  (Mapper.quality s = "Poor" ↔ s < -70) ∧
  (band_label <$> classify s = [Mapper.quality s] ↔ -80 <= s) ∧
  (Mapper.quality s = "Poor" ∧ band_label <$> classify s = ["Very Poor"] ↔ s < -80).
Proof.
  destruct (in_band_total s) as [b Hb].
  pose proof (proj2 (classify_in_band s b) Hb) as ->.
  unfold Mapper.quality.
  destruct b; simpl in Hb; repeat case_bool_decide; try lia; simpl;
    (split; [repeat first [apply list_elem_of_here | apply list_elem_of_further]|]);
    repeat split; intros; try lia; try done;
    try (destruct_and?; done).
Qed.

End Classifier.

(** * Dead zones and good zones *)

Section Zones.

Implicit Types (p : point) (data : list point) (t : Z).

Lemma elem_of_dead_zones data t p :
  p ∈ dead_zones data t ↔ p ∈ data ∧ signal_dbm p < t.
Proof. unfold dead_zones. rewrite list_elem_of_filter. tauto. Qed.

Lemma elem_of_good_zones data p :
  p ∈ good_zones data ↔ p ∈ data ∧ -60 <= signal_dbm p.
Proof. unfold good_zones. rewrite list_elem_of_filter. intuition lia. Qed.

(** Raising the threshold keeps every dead zone, in place. *)
Lemma dead_zones_mono data t' t :
  t' <= t → dead_zones data t' `sublist_of` dead_zones data t.
Proof.
  intros Hle. unfold dead_zones.
  induction data as [|p data IH]; [constructor|].
  rewrite !filter_cons.
  destruct (decide (signal_dbm p < t')), (decide (signal_dbm p < t));
    first [lia | exact IH | by constructor].
Qed.

(** C6: for every threshold the dead zones are exactly the samples whose
    signal is below it and the good zones exactly the samples whose signal
    is at least -60; both keep the samples in input order, so both are
    part of the input, and the threshold plays no role in the good zones
    or in the best-coverage lines built from them. *)
Theorem zones_are_the_filtered_samples data t :
  report_dead_zones (analyze_dead_zones data t) = dead_zones data t ∧
  (∀ p, p ∈ dead_zones data t ↔ p ∈ data ∧ signal_dbm p < t) ∧
  (∀ p, p ∈ good_zones data ↔ p ∈ data ∧ -60 <= signal_dbm p) ∧
  dead_zones data t `sublist_of` data ∧
  good_zones data `sublist_of` data ∧
  (length (dead_zones data t)
     + length (filter (λ p, (t <= signal_dbm p)%Z) data) = length data)%nat ∧
  (∀ t', report_best_coverage (analyze_dead_zones data t')
         = report_best_coverage (analyze_dead_zones data t)).
Proof.
  split; [reflexivity|].
  split; [intros p; apply elem_of_dead_zones|].
  split; [intros p; apply elem_of_good_zones|].
  split; [apply sublist_filter|].
  split; [apply sublist_filter|].
  split; [|reflexivity].
  unfold dead_zones. induction data as [|p data IH]; [reflexivity|].
  rewrite !filter_cons. repeat case_decide; simpl; lia.
Qed.

(** C2, as the code has it: with a lower threshold the dead zones are
    part of the dead zones of the higher one, so lowering the threshold
    never adds a dead zone and raising it never removes one; a sample is a
    dead zone exactly when its signal is below the threshold. *)
Theorem lower_threshold_fewer_dead_zones data t' t :
  t' < t →
  dead_zones data t' `sublist_of` dead_zones data t ∧
  (∀ p, p ∈ dead_zones data t' → p ∈ dead_zones data t) ∧
  (length (dead_zones data t') ≤ length (dead_zones data t))%nat ∧
  (∀ p, p ∈ dead_zones data t ↔ p ∈ data ∧ signal_dbm p < t).
Proof.
  intros Hlt.
  assert (Hsub : dead_zones data t' `sublist_of` dead_zones data t)
    by (apply dead_zones_mono; lia).
  split; [exact Hsub|].
  split; [intros p Hp; by apply (elem_of_sublist _ _ _ Hp)|].
  split; [by apply sublist_length|].
  intros p; apply elem_of_dead_zones.
Qed.

Lemma lower_threshold_fewer_dead_zones_witness :
  -80 < -60 ∧
  dead_zones [pt (-70) 0 0; pt (-90) 1 0] (-80)
    `sublist_of` dead_zones [pt (-70) 0 0; pt (-90) 1 0] (-60).
Proof.
  split; [lia|].
  apply (lower_threshold_fewer_dead_zones [pt (-70) 0 0; pt (-90) 1 0] (-80) (-60)).
  lia.
Defined.

(** C2, as the claim words it, fails: one sample of -70 dBm is a dead
    zone under the threshold -60 and is none under the lower threshold
    -80, so the set shrank when the threshold was lowered. *)
Lemma lower_threshold_superset_fails :
  -80 < -60 ∧
  dead_zones [pt (-70) 0 0] (-60) = [pt (-70) 0 0] ∧
  dead_zones [pt (-70) 0 0] (-80) = [] ∧
  ¬ (dead_zones [pt (-70) 0 0] (-60) ⊆ dead_zones [pt (-70) 0 0] (-80)).
Proof.
  split; [lia|]. split; [reflexivity|]. split; [reflexivity|].
  intros Hsub.
  specialize (Hsub (pt (-70) 0 0) (list_elem_of_here _ _)).
  by apply not_elem_of_nil in Hsub.
Qed.

End Zones.

(** * The built-in stable sort *)

Section SortedFacts.

Context {A : Type} (key : A → Z).
Implicit Types (v w : A) (l : list A) (reverse : bool) (k : Z).

Local Abbreviation in_order := (in_order key).

Lemma in_order_reverse v w : in_order true v w ↔ key w <= key v.
Proof. unfold in_order; simpl. lia. Qed.

Lemma insert_stable_Permutation reverse v l :
  Py.insert_stable key reverse v l ≡ₚ v :: l.
Proof.
  induction l as [|w l IH]; simpl; [reflexivity|].
  case_decide; [|reflexivity].
  rewrite IH. apply Permutation_swap.
Qed.

Lemma sorted_Permutation reverse l : Py.sorted key l reverse ≡ₚ l.
Proof.
  induction l as [|v l IH]; simpl; [reflexivity|].
  rewrite insert_stable_Permutation. by constructor.
Qed.

Lemma in_order_trans reverse u v w :
  in_order reverse u v → in_order reverse v w → in_order reverse u w.
Proof. unfold in_order. destruct reverse; simpl; lia. Qed.

Lemma insert_stable_in_order reverse v l :
  StronglySorted (in_order reverse) l →
  StronglySorted (in_order reverse) (Py.insert_stable key reverse v l).
Proof.
  induction 1 as [|w l Hl IH Hw]; simpl; [repeat constructor|].
  case_decide as Hwv.
  - constructor; [exact IH|].
    rewrite insert_stable_Permutation. constructor; [|exact Hw].
    unfold in_order. destruct reverse; simpl in *; lia.
  - constructor; [by constructor|].
    constructor; [exact Hwv|].
    eapply Forall_impl; [exact Hw|].
    intros u Hu. by apply (in_order_trans _ v w u).
Qed.

Lemma sorted_in_order reverse l :
  StronglySorted (in_order reverse) (Py.sorted key l reverse).
Proof.
  induction l as [|v l IH]; simpl; [constructor|].
  by apply insert_stable_in_order.
Qed.

(** Items of one key are never passed by an inserted item of that key. *)
Lemma insert_stable_filter reverse v l k :
  filter (λ u, key u = k) (Py.insert_stable key reverse v l)
  = filter (λ u, key u = k) (v :: l).
Proof.
  induction l as [|w l IH]; simpl; [reflexivity|].
  case_decide as Hwv; [|reflexivity].
  rewrite filter_cons, IH, !filter_cons.
  assert (key w ≠ key v) by (destruct reverse; simpl in Hwv; lia).
  repeat case_decide; first [congruence | reflexivity].
Qed.

Lemma sorted_stable reverse l k :
  filter (λ u, key u = k) (Py.sorted key l reverse) = filter (λ u, key u = k) l.
Proof.
  induction l as [|v l IH]; simpl; [reflexivity|].
  rewrite insert_stable_filter, !filter_cons, IH. reflexivity.
Qed.

(** Two lists in the order of the keys that hold the same items of every
    key, in the same order, are the same list. *)
Lemma in_order_stable_unique reverse l1 l2 :
  StronglySorted (in_order reverse) l1 →
  StronglySorted (in_order reverse) l2 →
  (∀ k, filter (λ u, key u = k) l1 = filter (λ u, key u = k) l2) →
  l1 = l2.
Proof.
  intros H1. revert l2.
  induction H1 as [|v l1 Hl1 IH Hv]; intros l2 H2 Heq.
  - destruct l2 as [|w l2]; [reflexivity|].
    specialize (Heq (key w)). rewrite filter_cons in Heq.
    case_decide; [discriminate|congruence].
  - destruct H2 as [|w l2 Hl2 Hw].
    { specialize (Heq (key v)). rewrite filter_cons in Heq.
      case_decide; [discriminate|congruence]. }
    assert (Hvw : key v = key w).
    { assert (v ∈ w :: l2) as Hin1.
      { eapply (proj1 (list_elem_of_filter (λ u, key u = key v) _ _)).
        rewrite <- Heq, filter_cons. case_decide; [|congruence].
        apply list_elem_of_here. }
      assert (w ∈ v :: l1) as Hin2.
      { eapply (proj1 (list_elem_of_filter (λ u, key u = key w) _ _)).
        rewrite Heq, filter_cons. case_decide; [|congruence].
        apply list_elem_of_here. }
      apply elem_of_cons in Hin1 as [->|Hin1]; [reflexivity|].
      apply elem_of_cons in Hin2 as [->|Hin2]; [reflexivity|].
      rewrite Forall_forall in Hv, Hw.
      specialize (Hv _ Hin2). specialize (Hw _ Hin1).
      unfold in_order in Hv, Hw. destruct reverse; simpl in *; lia. }
    assert (v = w) as ->.
    { specialize (Heq (key v)). rewrite !filter_cons in Heq.
      repeat case_decide; congruence. }
    f_equal. apply IH; [exact Hl2|].
    intros k. specialize (Heq k). rewrite !filter_cons in Heq.
    case_decide; congruence.
Qed.

(** Hence [sorted] is the one stable sort: every list that is in the
    order of the keys and keeps the input order among equal keys is the
    list [sorted] returns. *)
Lemma sorted_unique reverse l l' :
  StronglySorted (in_order reverse) l' →
  (∀ k, filter (λ u, key u = k) l' = filter (λ u, key u = k) l) →
  l' = Py.sorted key l reverse.
Proof.
  intros Hord Hst. apply (in_order_stable_unique reverse); [exact Hord| |].
  - apply sorted_in_order.
  - intros k. by rewrite Hst, sorted_stable.
Qed.

End SortedFacts.

(** * The best-coverage report *)

Section BestCoverage.

Implicit Types (p q : point) (data : list point) (k : Z).

Lemma best_coverage_eq data :
  best_coverage data = take 3 (Py.sorted signal_dbm (good_zones data) true).
Proof. unfold best_coverage. by destruct (good_zones data). Qed.

Lemma StronglySorted_take {A : Type} (R : relation A) (n : nat) (l : list A) :
  StronglySorted R l → StronglySorted R (take n l).
Proof.
  intros Hl. revert n.
  induction Hl as [|v l Hl IH Hv]; intros [|n]; simpl; try constructor.
  - apply IH.
  - by apply Forall_take.
Qed.

Lemma StronglySorted_weaken {A : Type} (R R' : relation A) (l : list A) :
  (∀ v w, R v w → R' v w) → StronglySorted R l → StronglySorted R' l.
Proof.
  intros HR. induction 1 as [|v l Hl IH Hv]; constructor; [exact IH|].
  eapply Forall_impl; [exact Hv|]. intros w. apply HR.
Qed.

Lemma filter_prefix {A : Type} (P : A → Prop) `{!∀ v, Decision (P v)}
    (l1 l2 : list A) :
  l1 `prefix_of` l2 → filter P l1 `prefix_of` filter P l2.
Proof. intros [l ->]. rewrite filter_app. by eexists. Qed.

Lemma good_zones_same_signal data k :
  filter (λ p, signal_dbm p = k) (good_zones data)
  = if decide (-60 <= k) then filter (λ p, signal_dbm p = k) data else [].
Proof.
  unfold good_zones.
  induction data as [|p data IH]; [by case_decide|].
  rewrite !filter_cons.
  destruct (decide (signal_dbm p >= -60)), (decide (signal_dbm p = k));
    rewrite ?filter_cons, ?IH; repeat case_decide; first [lia | done].
Qed.

(** C5: the report has at most three lines (three, or all good zones when
    there are fewer), each line is a good zone of the input, the lines run
    from the strongest signal down, and lines of equal signal come in
    input order: they are the first samples of that signal in the
    input. *)
Theorem best_coverage_top_three data :
  (length (best_coverage data) ≤ 3)%nat ∧
  length (best_coverage data) = Nat.min 3 (length (good_zones data)) ∧
  (∀ p, p ∈ best_coverage data → p ∈ data ∧ -60 <= signal_dbm p) ∧
  StronglySorted (λ p q, signal_dbm q <= signal_dbm p) (best_coverage data) ∧
  (∀ k, filter (λ p, signal_dbm p = k) (best_coverage data)
        `prefix_of` filter (λ p, signal_dbm p = k) data) ∧
  best_coverage data
    `prefix_of` Py.sorted signal_dbm (good_zones data) true ∧
  Py.sorted signal_dbm (good_zones data) true ≡ₚ good_zones data.
Proof.
  rewrite best_coverage_eq.
  set (ranked := Py.sorted signal_dbm (good_zones data) true).
  assert (Hperm : ranked ≡ₚ good_zones data) by apply sorted_Permutation.
  assert (Hlen : length (take 3 ranked) = Nat.min 3 (length (good_zones data)))
    by (rewrite length_take, Hperm; reflexivity).
  split; [lia|]. split; [exact Hlen|].
  split.
  { intros p Hp. apply elem_of_good_zones. rewrite <- Hperm.
    by apply (elem_of_sublist _ _ _ Hp), sublist_take. }
  split.
  { apply StronglySorted_take.
    eapply StronglySorted_weaken; [|apply (sorted_in_order signal_dbm true)].
    intros p q. apply (in_order_reverse signal_dbm). }
  split; [|split; [apply prefix_take | exact Hperm]].
  intros k.
  assert (Hk : filter (λ p, signal_dbm p = k) ranked
               `prefix_of` filter (λ p, signal_dbm p = k) data).
  { unfold ranked. rewrite sorted_stable, good_zones_same_signal.
    case_decide; [reflexivity | apply prefix_nil]. }
  etrans; [|exact Hk]. apply filter_prefix, prefix_take.
Qed.

End BestCoverage.

(** * The signal probe *)

Section Probe.

Example approximate_dbm_70 : Mapper.approximate_dbm 70 100 = Some (-51).
Proof. reflexivity. Qed.

Example approximate_dbm_7 : Mapper.approximate_dbm 7 100 = Some (-95).
Proof. reflexivity. Qed.

(** On another scale the rounding of the floats shows: 58/70 gives -41,
    where the exact value -42 has nothing to cut. *)
Example approximate_dbm_58_of_70 :
  Mapper.approximate_dbm 58 70 = Some (-41) ∧
  truncate (inject_Z (-100) + (inject_Z 58 / inject_Z 70) * inject_Z 70)%Q = -42.
Proof. split; reflexivity. Qed.

Lemma elem_of_scales (q m : Z) : 1 <= m <= 100 → 0 <= q <= m → (q, m) ∈ scales.
Proof.
  intros Hm Hq. unfold scales. apply list_elem_of_bind. exists m.
  split; [|apply elem_of_seqZ; lia].
  apply list_elem_of_fmap. exists q. split; [reflexivity|].
  apply elem_of_seqZ; lia.
Qed.






End Probe.

(** * Loading the dataset *)

Section Loading.

Variable griddata :
  list Q * list Q → list Z →
  list (list spec_float) * list (list spec_float) → string → Z →
  option (list (list spec_float)).

Implicit Types (fs : gmap string (list point)) (a : args).

Lemma load_data_loads fs data_file :
  load_precondition fs data_file = None →
  ∃ data, fs !! data_file = Some data ∧ data ≠ [] ∧
          load_data fs data_file = IO [] (Some (Some data)).
Proof.
  unfold load_precondition, load_data.
  destruct (fs !! data_file) as [[|p data]|]; try discriminate.
  intros _. exists (p :: data). repeat split; done.
Qed.

(** C9: when the dataset file is absent, or holds no sample, [load_data]
    gives no data and prints the lines of that failure, which differ
    between the two; [main] then ends at once: it prints nothing else,
    raises nothing, and saves no image. *)
Theorem load_failure_ends_the_run a fs (e : load_failure) :
  load_precondition fs (arg_data a) = Some e →
  (e = NotFoundError ↔ fs !! arg_data a = None) ∧
  (e = EmptyDatasetError ↔ fs !! arg_data a = Some []) ∧
  load_data fs (arg_data a) = IO (failure_report e (arg_data a)) (Some None) ∧
  main griddata a fs = IO (failure_report e (arg_data a)) (Some ()) ∧
  saved_images (console (main griddata a fs)) = [] ∧
  failure_report NotFoundError (arg_data a)
    ≠ failure_report EmptyDatasetError (arg_data a).
Proof.
  unfold load_precondition, main, load_data.
  destruct (fs !! arg_data a) as [[|p data]|]; intros [= <-];
    repeat split; try done.
Qed.

End Loading.

Lemma load_failure_ends_the_run_witness :
  load_precondition ∅ "wifi_data.json" = Some NotFoundError ∧
  main flat_griddata (Args "wifi_data.json" "wifi_heatmap.png" false (-75)) ∅
  = IO [Stdout "Error: wifi_data.json not found.";
        Stdout "Run wifi_mapper.py first to collect data."] (Some ()).
Proof.
  split; [reflexivity|].
  apply (load_failure_ends_the_run flat_griddata
           (Args "wifi_data.json" "wifi_heatmap.png" false (-75)) ∅ NotFoundError).
  reflexivity.
Defined.

(** * Minimum and maximum *)

Section Extremum.

Context {A : Type} (lt : A → A → bool) (R : relation A).
Hypothesis R_refl : ∀ v, R v v.
Hypothesis R_trans : ∀ u v w, R u v → R v w → R u w.
Hypothesis lt_true : ∀ v w, lt v w = true → R v w.
Hypothesis lt_false : ∀ v w, lt v w = false → R w v.

Lemma foldl_min_spec (l : list A) (acc : A) :
  let m := foldl (λ m w, if lt w m then w else m) acc l in
  m ∈ acc :: l ∧ R m acc ∧ Forall (R m) l.
Proof.
  revert acc. induction l as [|w l IH]; intros acc; simpl.
  - split; [apply list_elem_of_here|]. split; [apply R_refl|constructor].
  - destruct (IH (if lt w acc then w else acc)) as (Hin & Hacc & Hall).
    destruct (lt w acc) eqn:Hlt.
    + split; [by apply list_elem_of_further|].
      split; [eauto|]. constructor; assumption.
    + apply elem_of_cons in Hin.
      split; [destruct Hin as [->|Hin];
              [apply list_elem_of_here | by do 2 apply list_elem_of_further]|].
      split; [assumption|]. constructor; eauto.
Qed.

Lemma foldl_max_spec (l : list A) (acc : A) :
  let m := foldl (λ m w, if lt m w then w else m) acc l in
  m ∈ acc :: l ∧ R acc m ∧ Forall (λ v, R v m) l.
Proof.
  revert acc. induction l as [|w l IH]; intros acc; simpl.
  - split; [apply list_elem_of_here|]. split; [apply R_refl|constructor].
  - destruct (IH (if lt acc w then w else acc)) as (Hin & Hacc & Hall).
    destruct (lt acc w) eqn:Hlt.
    + split; [by apply list_elem_of_further|].
      split; [eauto|]. constructor; assumption.
    + apply elem_of_cons in Hin.
      split; [destruct Hin as [->|Hin];
              [apply list_elem_of_here | by do 2 apply list_elem_of_further]|].
      split; [assumption|]. constructor; eauto.
Qed.

Lemma min_by_spec (l : list A) (m : A) :
  Py.min_by lt l = Some m → m ∈ l ∧ Forall (R m) l.
Proof.
  destruct l as [|v l]; [discriminate|]. intros [= <-].
  destruct (foldl_min_spec l v) as (Hin & Hacc & Hall).
  split; [exact Hin|]. by constructor.
Qed.

Lemma max_by_spec (l : list A) (m : A) :
  Py.max_by lt l = Some m → m ∈ l ∧ Forall (λ v, R v m) l.
Proof.
  destruct l as [|v l]; [discriminate|]. intros [= <-].
  destruct (foldl_max_spec l v) as (Hin & Hacc & Hall).
  split; [exact Hin|]. by constructor.
Qed.

End Extremum.

Section MinMax.

Lemma Qltb_true v w : Py.Qltb v w = true → (v <= w)%Q.
Proof.
  unfold Py.Qltb. intros Hlt. apply negb_true_iff in Hlt.
  apply Qlt_le_weak, Qnot_le_lt. intros Hle.
  apply Qle_bool_iff in Hle. congruence.
Qed.

Lemma Qltb_false v w : Py.Qltb v w = false → (w <= v)%Q.
Proof.
  unfold Py.Qltb. intros Hlt. apply negb_false_iff in Hlt.
  by apply Qle_bool_iff.
Qed.

Lemma min_num_spec (l : list Q) (m : Q) :
  Py.min_num l = Some m → m ∈ l ∧ Forall (λ v, (m <= v)%Q) l.
Proof.
  apply (min_by_spec Py.Qltb Qle);
    eauto using Qle_refl, Qle_trans, Qltb_true, Qltb_false.
Qed.

Lemma max_num_spec (l : list Q) (m : Q) :
  Py.max_num l = Some m → m ∈ l ∧ Forall (λ v, (v <= m)%Q) l.
Proof.
  apply (max_by_spec Py.Qltb Qle);
    eauto using Qle_refl, Qle_trans, Qltb_true, Qltb_false.
Qed.

Lemma min_int_spec (l : list Z) (m : Z) :
  Py.min_int l = Some m → m ∈ l ∧ Forall (λ v, m <= v) l.
Proof.
  apply (min_by_spec Z.ltb Z.le); intros; lia.
Qed.

Lemma max_int_spec (l : list Z) (m : Z) :
  Py.max_int l = Some m → m ∈ l ∧ Forall (λ v, v <= m) l.
Proof.
  apply (max_by_spec Z.ltb Z.le); intros; lia.
Qed.

End MinMax.

Section RunFacts.

Context {A B : Type}.
Implicit Types (m : io A) (k : A → io B).

Lemma bind_call_Some (v : A) k : call (Some v) ≫= k = k v.
Proof. unfold mbind, io_bind, call; simpl. by destruct (k v). Qed.

Lemma bind_ret_io (v : A) k : mret v ≫= k = k v.
Proof. unfold mbind, io_bind, mret, io_ret; simpl. by destruct (k v). Qed.

Lemma bind_emit (e : event) (k' : () → io B) :
  emit e ≫= k' = IO (e :: console (k' ())) (outcome (k' ())).
Proof. reflexivity. Qed.

End RunFacts.

(** * More on the signal probe *)

Section ProbeOutcomes.

Import Mapper.

Implicit Types (iwconfig : utility iwconfig_scan) (airport netsh : utility (option Z)).

Lemma reading_of_not_NoReading (v : option Z) : reading_of v ≠ NoReading.
Proof. by destruct v. Qed.

(** X1: the probe answers [None] exactly when none of the three utilities
    gave a value that its pattern matches: each one either failed to run
    or printed nothing that matches. *)
Theorem probe_unavailable_iff iwconfig airport netsh :
  get_wifi_signal_strength iwconfig airport netsh = NoReading ↔
  iwconfig ∈ [Unavailable; Output (IwconfigScan None None)] ∧
  airport ∈ [Unavailable; Output None] ∧
  netsh ∈ [Unavailable; Output None].
Proof.
  rewrite !elem_of_cons, !elem_of_nil.
  destruct iwconfig as [[[level|] [[q m]|]]|], airport as [[rssi|]|],
    netsh as [[pct|]|]; simpl;
    (split;
     [ intros Hnone;
       first [ discriminate Hnone
             | by apply reading_of_not_NoReading in Hnone
             | intuition congruence ]
     | intros (Hi & Ha & Hn); first [ reflexivity | exfalso; intuition congruence ] ]).
Qed.


Lemma scales_close_to_exact : forallb close_to_exact scales = true.
Proof. vm_compute. reflexivity. Qed.

Lemma scales_step_up :
  forallb (λ qm : Z * Z, (qm.2 <=? qm.1) || steps_up qm) scales = true.
Proof. vm_compute. reflexivity. Qed.

Lemma scales_ends :
  forallb (λ m, bool_decide (approximate_dbm 0 m = Some (-100)
                             ∧ approximate_dbm m m = Some (-30)))
          (seqZ 1 100) = true.
Proof. vm_compute. reflexivity. Qed.

Lemma approximate_dbm_close (q m : Z) :
  1 <= m <= 100 → 0 <= q <= m →
  ∃ v, approximate_dbm q m = Some v ∧
       70 * q - 100 * m <= m * v < 70 * q - 100 * m + 2 * m.
Proof.
  intros Hm Hq.
  pose proof (proj1 (forallb_forall _ _) scales_close_to_exact (q, m)
                (proj1 (list_elem_of_In _ _) (elem_of_scales q m Hm Hq))) as Hrow.
  unfold close_to_exact in Hrow; cbn [fst snd] in Hrow.
  destruct (approximate_dbm q m) as [v|]; [|discriminate Hrow].
  exists v. split; [reflexivity|]. lia.
Qed.

(** X2: a link quality over the scale 0 makes the probe raise: the division
    by zero is not among the exceptions the [try] block catches, so no other
    utility is tried, whatever it would have answered; on the scales up to
    100 this is the only link quality that raises. *)
Theorem zero_scale_raises (q m : Z) airport netsh :
  0 <= q <= m → m <= 100 →
  (get_wifi_signal_strength (Output (IwconfigScan None (Some (q, m))))
     airport netsh = Uncaught ↔ m = 0) ∧
  (∀ quality airport' netsh',
      get_wifi_signal_strength (Output (IwconfigScan None (Some (quality, 0))))
        airport' netsh' = Uncaught).
Proof.
  intros Hq Hm. split; [|reflexivity].
  split.
  - intros Hraise. destruct (decide (m = 0)) as [|Hpos]; [done|].
    destruct (approximate_dbm_close q m) as (v & Hv & _); [lia..|].
    simpl in Hraise. rewrite Hv in Hraise. discriminate.
  - intros ->. reflexivity.
Qed.

Lemma approximate_dbm_step (q m : Z) :
  1 <= m <= 100 → 0 <= q < m →
  ∃ v v', approximate_dbm q m = Some v ∧ approximate_dbm (q + 1) m = Some v'
          ∧ v <= v'.
Proof.
  intros Hm Hq.
  pose proof (proj1 (forallb_forall _ _) scales_step_up (q, m)
                (proj1 (list_elem_of_In _ _)
                   (elem_of_scales q m Hm ltac:(lia)))) as Hrow.
  unfold steps_up in Hrow; cbn [fst snd] in Hrow.
  destruct (approximate_dbm q m) as [v|], (approximate_dbm (q + 1) m) as [v'|];
    try (exfalso; lia).
  exists v, v'. repeat split; lia.
Qed.

Lemma approximate_dbm_monotone (m q : Z) (n : nat) :
  1 <= m <= 100 → 0 <= q → q + Z.of_nat n <= m →
  ∃ v v', approximate_dbm q m = Some v ∧
          approximate_dbm (q + Z.of_nat n) m = Some v' ∧ v <= v'.
Proof.
  intros Hm Hq. induction n as [|n IH]; intros Hn.
  - destruct (approximate_dbm_close q m) as (v & Hv & _); [lia..|].
    exists v, v. rewrite Z.add_0_r. repeat split; [done..|lia].
  - destruct IH as (v & v' & Hv & Hv' & Hle); [lia|].
    destruct (approximate_dbm_step (q + Z.of_nat n) m) as (u & u' & Hu & Hu' & Hstep);
      [lia..|].
    replace (q + Z.of_nat (S n)) with (q + Z.of_nat n + 1) by lia.
    exists v, u'. simplify_eq. repeat split; [done..|lia].
Qed.

(** X3: on every scale from 1 to 100 a link quality between nothing and
    the full scale gives a reading between -100 and -30 dBm, which does not
    fall when the quality rises; the reading is never below the exact value
    70*q/m - 100 and is less than 2 dB above it. *)
Theorem link_quality_reading (q q' m : Z) :
  1 <= m <= 100 → 0 <= q <= q' → q' <= m →
  ∃ v v', approximate_dbm q m = Some v ∧ approximate_dbm q' m = Some v' ∧
          -100 <= v ∧ v <= v' ∧ v' <= -30 ∧
          70 * q - 100 * m <= m * v < 70 * q - 100 * m + 2 * m.
Proof.
  intros Hm Hq Hq'.
  pose proof (proj1 (forallb_forall _ _) scales_ends m
                (proj1 (list_elem_of_In _ _)
                   (proj2 (elem_of_seqZ 1 100 m) ltac:(lia)))) as Hends.
  apply bool_decide_eq_true in Hends as [Hzero Hfull].
  destruct (approximate_dbm_monotone m 0 (Z.to_nat q)) as (v0 & v & H0 & Hv & Hlo);
    [lia..|].
  destruct (approximate_dbm_monotone m q (Z.to_nat (q' - q)))
    as (v1 & v' & Hv1 & Hv' & Hmid); [lia..|].
  destruct (approximate_dbm_monotone m q' (Z.to_nat (m - q')))
    as (v2 & vm & Hv2 & Hvm & Hhi); [lia..|].
  replace (0 + Z.of_nat (Z.to_nat q)) with q in Hv by lia.
  replace (q + Z.of_nat (Z.to_nat (q' - q))) with q' in Hv' by lia.
  replace (q' + Z.of_nat (Z.to_nat (m - q'))) with m in Hvm by lia.
  destruct (approximate_dbm_close q m) as (w & Hw & Hclose); [lia..|].
  simplify_eq.
  exists v, v'. repeat split; first [done | lia].
Qed.

End ProbeOutcomes.

Lemma link_quality_reading_witness :
  (1 <= 70 <= 100 ∧ 0 <= 35 <= 58 ∧ 58 <= 70) ∧
  ∃ v v', Mapper.approximate_dbm 35 70 = Some v ∧
          Mapper.approximate_dbm 58 70 = Some v' ∧
          -100 <= v ∧ v <= v' ∧ v' <= -30 ∧
          70 * 35 - 100 * 70 <= 70 * v < 70 * 35 - 100 * 70 + 2 * 70.
Proof.
  split; [lia|].
  apply (link_quality_reading 35 58 70); lia.
Defined.

Section ProbeLabels.

Import Mapper.

Lemma percentage_labels :
  forallb (λ pct, bool_decide (quality <$> approximate_dbm pct 100
                               = Some (percentage_label pct)))
          (seqZ 0 101) = true.
Proof. vm_compute. reflexivity. Qed.

(** X4: a point logged from a percentage is called Excellent from 71 %,
    Good from 56 %, Fair from 42 % and Poor below: cutting the reading
    toward zero moves each bound under the exact 71.4, 57.1 and 42.9 %. *)
Theorem percentage_quality_label (pct : Z) :
  0 <= pct <= 100 →
  ∃ v, approximate_dbm pct 100 = Some v ∧
       quality v = percentage_label pct ∧
       (quality v = "Excellent" ↔ 71 <= pct) ∧
       (quality v = "Good" ↔ 56 <= pct < 71) ∧
       (quality v = "Fair" ↔ 42 <= pct < 56) ∧
       (quality v = "Poor" ↔ pct < 42).
Proof.
  intros Hpct.
  pose proof (proj1 (forallb_forall _ _) percentage_labels pct
                (proj1 (list_elem_of_In _ _)
                   (proj2 (elem_of_seqZ 0 101 pct) ltac:(lia)))) as Hrow.
  apply bool_decide_eq_true in Hrow.
  destruct (approximate_dbm pct 100) as [v|]; [|discriminate].
  injection Hrow as Hlabel. exists v. split; [reflexivity|].
  split; [exact Hlabel|]. rewrite Hlabel. unfold percentage_label.
  repeat case_bool_decide; repeat split; intros; first [lia | done].
Qed.

End ProbeLabels.

Lemma percentage_quality_label_witness :
  0 <= 71 <= 100 ∧
  ∃ v, Mapper.approximate_dbm 71 100 = Some v ∧
       Mapper.quality v = percentage_label 71 ∧
       (Mapper.quality v = "Excellent" ↔ 71 <= 71) ∧
       (Mapper.quality v = "Good" ↔ 56 <= 71 < 71) ∧
       (Mapper.quality v = "Fair" ↔ 42 <= 71 < 56) ∧
       (Mapper.quality v = "Poor" ↔ 71 < 42).
Proof.
  split; [lia|].
  apply (percentage_quality_label 71); lia.
Defined.

(** * More on the analysis *)

Section AnalysisFacts.

Implicit Types (p q : point) (data : list point) (t : Z).

(** X5: a sample can be listed both as a dead zone and as a good zone
    exactly when the threshold is above -60; with the default -75, and with
    every threshold up to -60, the two lists share no sample. *)
Theorem dead_and_good_overlap_iff t :
  (∃ data p, p ∈ dead_zones data t ∧ p ∈ good_zones data) ↔ -60 < t.
Proof.
  split.
  - intros (data & p & Hdead & Hgood).
    apply elem_of_dead_zones in Hdead as [_ Hdead].
    apply elem_of_good_zones in Hgood as [_ Hgood]. lia.
  - intros Ht. exists [pt (-60) 0 0], (pt (-60) 0 0). split.
    + apply elem_of_dead_zones. split; [apply list_elem_of_here | simpl; lia].
    + apply elem_of_good_zones. split; [apply list_elem_of_here | simpl; lia].
Qed.

Lemma filter_length_ext {A : Type} (P1 P2 : A → Prop)
    `{!∀ v, Decision (P1 v)} `{!∀ v, Decision (P2 v)} (l : list A) :
  (∀ v, P1 v ↔ P2 v) → length (filter P1 l) = length (filter P2 l).
Proof. intros Hiff. by rewrite (list_filter_iff P1 P2 l Hiff). Qed.

Lemma filter_length_split {A : Type} (P P1 P2 : A → Prop)
    `{!∀ v, Decision (P v)} `{!∀ v, Decision (P1 v)} `{!∀ v, Decision (P2 v)}
    (l : list A) :
  (∀ v, P v ↔ P1 v ∨ P2 v) → (∀ v, P1 v → P2 v → False) →
  length (filter P l) = (length (filter P1 l) + length (filter P2 l))%nat.
Proof.
  intros Hor Hdisj. induction l as [|v l IH]; [reflexivity|].
  rewrite !filter_cons.
  destruct (decide (P v)) as [HP|HP], (decide (P1 v)) as [HP1|HP1],
    (decide (P2 v)) as [HP2|HP2]; simpl; rewrite ?IH;
    first [lia | exfalso; pose proof (Hor v); pose proof (Hdisj v); tauto].
Qed.

(** X6: the breakdown and the zone lists count the same samples: the good
    zones are the Excellent and the Good rows together, and the dead zones
    under a threshold set on a band bound are the rows below that bound;
    under the default -75 they number at least the Very Poor row and at
    most the Poor and Very Poor rows together. *)
Theorem breakdown_matches_zones data :
  length (good_zones data) = (band_count Excellent data + band_count Good data)%nat ∧
  length (dead_zones data (-80)) = band_count VeryPoor data ∧
  length (dead_zones data (-70))
    = (band_count Poor data + band_count VeryPoor data)%nat ∧
  length (dead_zones data (-60))
    = (band_count Fair data + (band_count Poor data + band_count VeryPoor data))%nat ∧
  (length (dead_zones data (-50)) + band_count Excellent data)%nat = length data ∧
  (band_count VeryPoor data ≤ length (dead_zones data (-75)))%nat ∧
  (length (dead_zones data (-75))
     ≤ band_count Poor data + band_count VeryPoor data)%nat.
Proof.
  assert (H70 : length (dead_zones data (-70))
                = (band_count Poor data + band_count VeryPoor data)%nat).
  { apply filter_length_split; simpl; intros; lia. }
  assert (H80 : length (dead_zones data (-80)) = band_count VeryPoor data).
  { apply filter_length_ext; simpl; intros; lia. }
  split; [apply filter_length_split; simpl; intros; lia|].
  split; [exact H80|]. split; [exact H70|].
  split.
  { rewrite <- H70. apply filter_length_split; simpl; intros; lia. }
  split.
  { clear H70 H80. unfold dead_zones, band_count.
    induction data as [|p data IH]; [reflexivity|].
    rewrite !filter_cons. repeat case_decide; simpl in *; lia. }
  rewrite <- H70, <- H80.
  split; apply sublist_length, dead_zones_mono; lia.
Qed.

Lemma StronglySorted_take_drop {A : Type} (R : relation A) (n : nat) (l : list A) :
  StronglySorted R l →
  ∀ v w, v ∈ take n l → w ∈ drop n l → R v w.
Proof.
  intros Hl v w Hv Hw.
  rewrite <- (take_drop n l) in Hl.
  by apply (StronglySorted_app_1_elem_of R (take n l) (drop n l)).
Qed.

(** X7: the report is empty exactly when no sample reaches -60 dBm;
    otherwise its first line is the strongest sample of the whole
    dataset, and no good zone left out of the report is stronger than a
    reported one. *)
Theorem best_coverage_strongest data :
  (best_coverage data = [] ↔ ∀ p, p ∈ data → signal_dbm p < -60) ∧
  (∀ p, head (best_coverage data) = Some p →
        Py.max_int (signal_dbm <$> data) = Some (signal_dbm p)) ∧
  ∃ rest,
    best_coverage data ++ rest ≡ₚ good_zones data ∧
    ∀ p q, p ∈ best_coverage data → q ∈ rest → signal_dbm q <= signal_dbm p.
Proof.
  rewrite best_coverage_eq.
  set (ranked := Py.sorted signal_dbm (good_zones data) true).
  assert (Hperm : ranked ≡ₚ good_zones data) by apply sorted_Permutation.
  assert (Hord : StronglySorted (λ p q, signal_dbm q <= signal_dbm p) ranked).
  { eapply StronglySorted_weaken; [|apply (sorted_in_order signal_dbm true)].
    intros p q. apply (in_order_reverse signal_dbm). }
  split; [|split].
  - split.
    + intros Hnil p Hp.
      destruct (decide (-60 <= signal_dbm p)) as [Hgood|]; [|lia].
      assert (Hin : p ∈ ranked)
        by (rewrite Hperm; apply elem_of_good_zones; done).
      destruct ranked as [|r ranked']; [by apply not_elem_of_nil in Hin|].
      discriminate Hnil.
    + intros Hweak.
      destruct ranked as [|r ranked'] eqn:Er; [reflexivity|].
      assert (Hin : r ∈ good_zones data)
        by (rewrite <- Hperm; apply list_elem_of_here).
      apply elem_of_good_zones in Hin as [Hin Hr].
      specialize (Hweak r Hin). lia.
  - intros p Hhead.
    destruct ranked as [|r ranked'] eqn:Er; [discriminate|].
    simpl in Hhead. injection Hhead as ->.
    assert (Hp : p ∈ good_zones data)
      by (rewrite <- Hperm; apply list_elem_of_here).
    apply elem_of_good_zones in Hp as [Hp Hgood].
    destruct (Py.max_int (signal_dbm <$> data)) as [m|] eqn:Hmax.
    + apply max_int_spec in Hmax as [Hm Hall].
      rewrite Forall_fmap, Forall_forall in Hall.
      apply list_elem_of_fmap in Hm as (q & -> & Hq).
      pose proof (Hall p Hp) as Hle; simpl in Hle.
      f_equal. apply Z.le_antisymm; [|exact Hle].
      assert (Hqr : q ∈ p :: ranked')
        by (rewrite Hperm; apply elem_of_good_zones; split; [done|lia]).
      apply elem_of_cons in Hqr as [->|Hqr]; [lia|].
      apply StronglySorted_inv in Hord as [_ Hhd].
      rewrite Forall_forall in Hhd. by apply Hhd.
    + destruct data; [by apply not_elem_of_nil in Hp | discriminate Hmax].
  - exists (drop 3 ranked). split; [by rewrite take_drop|].
    intros p q Hp Hq.
    by apply (StronglySorted_take_drop _ 3 ranked Hord p q).
Qed.

(** X8: a reference mark is drawn on the colorbar at each of the four
    levels that lies between the weakest and the strongest sample, in the
    order -50, -60, -70, -80; each level is the lowest signal of the band
    whose name it carries; with no sample the lookup of the range raises. *)
Theorem reference_marks_between signals marks :
  reference_marks signals = Some marks →
  marks `sublist_of` quality_levels ∧
  (∀ level label,
      (level, label) ∈ marks ↔
      (level, label) ∈ quality_levels ∧
      ∃ lo hi, lo ∈ signals ∧ hi ∈ signals ∧ lo <= level <= hi) ∧
  (∀ level label,
      (level, label) ∈ quality_levels →
      ∃ b, band_label b = label ∧ in_band b level ∧ ¬ in_band b (level - 1)) ∧
  (reference_marks [] = None).
Proof.
  unfold reference_marks.
  destruct (Py.min_int signals) as [lo|] eqn:Hlo; [|discriminate].
  destruct (Py.max_int signals) as [hi|] eqn:Hhi; [|discriminate].
  simpl. intros [= <-].
  apply min_int_spec in Hlo as [Hlo Hlo_all].
  apply max_int_spec in Hhi as [Hhi Hhi_all].
  rewrite Forall_forall in Hlo_all, Hhi_all.
  split; [apply sublist_filter|]. split; [|split; [|reflexivity]].
  - intros level label. rewrite list_elem_of_filter. simpl. split.
    + intros [[H1 H2] Hin]. split; [exact Hin|]. by exists lo, hi.
    + intros [Hin (lo' & hi' & Hlo' & Hhi' & Hl & Hh)].
      split; [|exact Hin].
      pose proof (Hlo_all lo' Hlo'). pose proof (Hhi_all hi' Hhi'). lia.
  - intros level label Hin. unfold quality_levels in Hin.
    rewrite !elem_of_cons, elem_of_nil in Hin.
    destruct Hin as [[= -> ->]|[[= -> ->]|[[= -> ->]|[[= -> ->]|[]]]]];
      [exists Excellent | exists Good | exists Fair | exists Poor];
      simpl; repeat split; lia.
Qed.

End AnalysisFacts.

Lemma reference_marks_between_witness :
  reference_marks [-40; -70; -55] = Some [(-50, "Excellent"); (-60, "Good"); (-70, "Fair")] ∧
  [(-50, "Excellent"); (-60, "Good"); (-70, "Fair")] `sublist_of` quality_levels.
Proof.
  split; [reflexivity|].
  apply (reference_marks_between [-40; -70; -55]). reflexivity.
Defined.

(** * The visualization run *)

Section RunImages.

Variable griddata :
  list Q * list Q → list Z →
  list (list spec_float) * list (list spec_float) → string → Z →
  option (list (list spec_float)).

Implicit Types (data : list point) (fs : gmap string (list point)) (a : args).

Ltac split_run :=
  repeat match goal with
         | |- context [match ?o with Some _ => _ | None => _ end] =>
             destruct o; simpl
         | |- context [let '(_, _) := ?pr in _] => destruct pr; simpl
         end.

Lemma saved_images_app (shown shown' : list event) :
  saved_images (shown ++ shown') = saved_images shown ++ saved_images shown'.
Proof. apply omap_app. Qed.

Lemma interpolate_console data R : console (interpolate griddata data R) = [].
Proof.
  unfold interpolate, mbind, io_bind, call, mret, io_ret; simpl.
  split_run; reflexivity.
Qed.

Lemma create_heatmap_images data (output_file : string) R :
  saved_images (console (create_heatmap griddata data output_file R))
  = match outcome (create_heatmap griddata data output_file R) with
    | Some _ => [output_file]
    | None => []
    end.
Proof.
  unfold create_heatmap.
  destruct (interpolate griddata data R) as [shown fig] eqn:Einterp.
  assert (shown = []) as -> by (by rewrite <- (interpolate_console data R), Einterp).
  unfold mbind, io_bind, call, print, emit, mret, io_ret; simpl.
  split_run; reflexivity.
Qed.

Lemma create_3d_visualization_images data (output_file : string) :
  saved_images (console (create_3d_visualization griddata data output_file))
  = match outcome (create_3d_visualization griddata data output_file) with
    | Some _ => [output_file]
    | None => []
    end.
Proof.
  unfold create_3d_visualization.
  destruct (interpolate griddata data 50) as [shown fig] eqn:Einterp.
  assert (shown = []) as -> by (by rewrite <- (interpolate_console data 50), Einterp).
  unfold mbind, io_bind, call, print, emit, mret, io_ret; simpl.
  split_run; reflexivity.
Qed.

(** X9: a run of the visualizer saves the heat map, then with [--3d] the
    file wifi_3d.png, and no other image; it saves them all exactly when
    the data loads and the run ends without exception; and whenever the
    data loads, the dead-zone analysis is the first thing shown, before any
    drawing is tried. *)
Theorem main_saves_only_its_images a fs :
  let run := main griddata a fs in
  let expected := arg_output a :: (if arg_3d a then ["wifi_3d.png"] else []) in
  saved_images (console run) `prefix_of` expected ∧
  (saved_images (console run) = expected ↔
   outcome run = Some () ∧ load_precondition fs (arg_data a) = None) ∧
  (∀ data, fs !! arg_data a = Some data → data ≠ [] →
           head (console run)
           = Some (Report (analyze_dead_zones data (arg_threshold a)))).
Proof.
  intros run expected.
  destruct (fs !! arg_data a) as [[|p data]|] eqn:Efile.
  1,3: assert (Hrun : saved_images (console run) = [] ∧ head (console run) ≠
                       Some (Report (analyze_dead_zones [] (arg_threshold a))))
         by (unfold run, main, load_data; rewrite Efile; split; [reflexivity|discriminate]);
       destruct Hrun as [Hsaved _]; rewrite Hsaved;
       (split; [apply prefix_nil|]);
       (split; [split; [discriminate|]; unfold load_precondition; rewrite Efile;
                intros [_ [=]]|]);
       intros data' [= <-]; done.
  set (samples := p :: data) in *.
  assert (Hmain : run = (emit (Report (analyze_dead_zones samples (arg_threshold a)));;
                         create_heatmap griddata samples (arg_output a) 100;;
                         (if arg_3d a
                          then create_3d_visualization griddata samples "wifi_3d.png";;
                               mret ()
                          else mret ());;
                         print (nl +:+ "âœ“ Visualization complete!");;
                         print ("  View your heat map: " +:+ arg_output a))).
  { unfold run, main, load_data. rewrite Efile.
    rewrite bool_decide_eq_false_2 by discriminate.
    rewrite bind_ret_io. reflexivity. }
  assert (Hload : load_precondition fs (arg_data a) = None)
    by (unfold load_precondition; by rewrite Efile).
  rewrite Hmain, Hload. clear Hmain run.
  pose proof (create_heatmap_images samples (arg_output a) 100) as Hheat.
  pose proof (create_3d_visualization_images samples "wifi_3d.png") as Hsurf.
  destruct (create_heatmap griddata samples (arg_output a) 100) as [c1 o1].
  destruct (create_3d_visualization griddata samples "wifi_3d.png") as [c2 o2].
  unfold expected. clearbody samples. clear Efile.
  simpl in Hheat, Hsurf.
  destruct o1 as [fig1|], (arg_3d a), o2 as [fig2|];
    unfold mbind, io_bind, emit, print, mret, io_ret; cbn [console outcome];
    rewrite ?saved_images_app, ?Hheat, ?Hsurf; simpl;
    (split; [first [reflexivity | apply prefix_nil | by exists ["wifi_3d.png"]]|]);
    (split; [split; [first [done | discriminate] | first [done | intros [[=] _]]]|]);
    intros data' [= <-] _; reflexivity.
Qed.

End RunImages.

(** * The collection session *)

Section SessionFacts.

Import Mapper.

Variable env : environment.

Implicit Types (w : world) (data_file : string) (before added : list point)
  (turns : nat) (out : result (list point) * world).

Lemma logged_lines_app (shown shown' : list output) :
  logged_lines (shown ++ shown') = (logged_lines shown + logged_lines shown')%nat.
Proof. unfold logged_lines. by rewrite filter_app, length_app. Qed.

(** A stretch that logged nothing and stopped. *)
Lemma growth_stop turns data_file before w (r : result (list point)) w1 :
  r ≠ Unfinished → (∀ res, r = Returned res → res = before) →
  stdin w1 `suffix_of` stdin w →
  screen w `prefix_of` screen w1 →
  logged_lines (screen w1) = logged_lines (screen w) →
  (probe_calls w ≤ probe_calls w1)%nat →
  clock_reads w1 = clock_reads w → disk w1 = disk w →
  growth env turns data_file before w (r, w1) [].
Proof.
  intros Hr Hres Hin Hout Hlog Hprobe Hclock Hdisk. unfold growth; simpl.
  pose proof (suffix_length _ _ Hin).
  rewrite app_nil_r. split_and!; try done; try lia.
Qed.

(** No turn granted. *)
Lemma growth_unfinished data_file before w :
  growth env 0 data_file before w (Unfinished, w) [].
Proof.
  unfold growth; simpl. rewrite Nat.add_0_r.
  split_and!; try done; try lia.
Qed.

(** A turn that logged nothing, followed by the rest of the loop. *)
Lemma growth_continue turns data_file before w w1 out added :
  stdin w1 `suffix_of` stdin w →
  (length (stdin w1) < length (stdin w))%nat →
  screen w `prefix_of` screen w1 →
  logged_lines (screen w1) = logged_lines (screen w) →
  (probe_calls w ≤ probe_calls w1)%nat →
  clock_reads w1 = clock_reads w → disk w1 = disk w →
  growth env turns data_file before w1 out added →
  growth env (S turns) data_file before w out added.
Proof.
  intros Hin Hlen Hout Hlog Hprobe Hclock Hdisk.
  unfold growth. rewrite Hdisk, Hlog, Hclock.
  intros (Hd & Hres & Hfuel & Hin' & Hlines & Hout' & Hlog' & Hclock' & Hstamp
          & Hroom & Hprobe' & Hsignal).
  split_and!; try done.
  - intros Hun. specialize (Hfuel Hun). lia.
  - by etrans.
  - lia.
  - by etrans.
  - lia.
  - eapply Forall_impl; [exact Hsignal|].
    intros p (n & Hn & Hp). exists n. split; [lia|done].
Qed.

(** A turn that logged the point [p], followed by the rest of the loop. *)
Lemma growth_log turns data_file before w w1 (p : point) out added :
  stdin w1 `suffix_of` stdin w →
  (3 + length (stdin w1) ≤ length (stdin w))%nat →
  screen w `prefix_of` screen w1 →
  logged_lines (screen w1) = S (logged_lines (screen w)) →
  (∃ n, (probe_calls w ≤ n < probe_calls w1)%nat ∧ probed env n (signal_dbm p)) →
  clock_reads w1 = S (clock_reads w) →
  timestamp p = now env (clock_reads w) →
  room p ≠ Some "" →
  disk w1 = <[data_file := before ++ [p]]> (disk w) →
  growth env turns data_file (before ++ [p]) w1 out added →
  growth env (S turns) data_file before w out (p :: added).
Proof.
  intros Hin Hlen Hout Hlog (n & Hn & Hp) Hclock Hstamp Hroom Hdisk.
  unfold growth. rewrite Hdisk, Hlog, Hclock.
  intros (Hd & Hres & Hfuel & Hin' & Hlines & Hout' & Hlog' & Hclock' & Hstamp'
          & Hroom' & Hprobe' & Hsignal).
  split_and!.
  - rewrite Hd. destruct added as [|p' added]; [reflexivity|].
    rewrite insert_insert_eq. f_equal. by rewrite <- app_assoc.
  - intros res Hr. rewrite (Hres res Hr). by rewrite <- app_assoc.
  - intros Hun. specialize (Hfuel Hun). lia.
  - by etrans.
  - simpl. lia.
  - by etrans.
  - simpl. lia.
  - simpl. lia.
  - simpl. rewrite Hstamp. f_equal. exact Hstamp'.
  - by constructor.
  - simpl. lia.
  - constructor.
    + exists n. split; [lia|done].
    + eapply Forall_impl; [exact Hsignal|].
      intros p' (n' & Hn' & Hp'). exists n'. split; [lia|done].
Qed.

Lemma logged_lines_ask (shown : list output) (prompt : string) :
  logged_lines (shown ++ [Ask prompt]) = logged_lines shown.
Proof. rewrite logged_lines_app. unfold logged_lines at 2; simpl. lia. Qed.

Lemma logged_lines_say (shown : list output) (line : string) :
  logged_lines (shown ++ [Say line]) = logged_lines shown.
Proof. rewrite logged_lines_app. unfold logged_lines at 2; simpl. lia. Qed.

Lemma logged_lines_logged (shown : list output) (v : Z) (word : string) (px py : Q) :
  logged_lines (shown ++ [SayLogged v word px py]) = S (logged_lines shown).
Proof. rewrite logged_lines_app. unfold logged_lines at 2; simpl. lia. Qed.

Ltac session_step :=
  first
    [ match goal with
      | |- context [match ?l with [] => _ | _ :: _ => _ end] =>
          is_var l; destruct l as [|? ?]
      end
    | match goal with
      | |- context [float env ?a] => destruct (float env a) as [?|] eqn:?
      end ];
  cbn [stdin probe_calls clock_reads disk screen].

(** The stretch of a turn that follows a reading [signal]: from the world
    [w] on, within a turn that began in [w0]. *)
Lemma log_growth turns data_file before (point_num : nat) (signal : Z) w0 w :
  (∀ before' point_num' w',
      ∃ added, growth env turns data_file before' w'
                 (collect_loop env turns data_file before' point_num' w') added) →
  stdin w `suffix_of` stdin w0 →
  (length (stdin w) < length (stdin w0))%nat →
  screen w0 `prefix_of` screen w →
  logged_lines (screen w) = logged_lines (screen w0) →
  (∃ n, (probe_calls w0 ≤ n < probe_calls w)%nat ∧ probed env n signal) →
  clock_reads w = clock_reads w0 → disk w = disk w0 →
  ∃ added,
    growth env (S turns) data_file before w0
      (('(px, py) ← get_manual_position env;
        answer ← input "Room/Area name (optional): ";
        stamp ← timestamp_now env;
        show (SayLogged signal (quality signal) px py);;
        dump data_file
          (before ++ [Point stamp signal px py
                        (if bool_decide (strip env answer = "") then None
                         else Some (strip env answer))]);;
        collect_loop env turns data_file
          (before ++ [Point stamp signal px py
                        (if bool_decide (strip env answer = "") then None
                         else Some (strip env answer))])
          (S point_num)) w)
      added.
Proof.
  intros IH Hin Hlen Hout Hlog Hprobe Hclock Hdisk.
  destruct w as [inp pc cr dk sc].
  cbn [stdin probe_calls clock_reads disk screen] in *.
  unfold get_manual_position, mbind, session_bind, input, say, show, timestamp_now,
    dump, mret, session_ret;
    cbn [stdin probe_calls clock_reads disk screen].
  destruct w0 as [inp0 pc0 cr0 dk0 sc0].
  cbn [stdin probe_calls clock_reads disk screen] in *. subst cr dk.
  destruct Hprobe as (n & Hn & Hsignal).
  repeat session_step;
    try (exists []; apply growth_stop;
         cbn [stdin probe_calls clock_reads disk screen fst snd length] in *;
         repeat first [rewrite logged_lines_ask | rewrite logged_lines_say | rewrite logged_lines_logged];
         first [ done | lia | discriminate
               | solve [etrans; [|exact Hin];
                        repeat (first [done | apply suffix_cons_r])]
               | etrans; [exact Hout|]; rewrite <- ?app_assoc; by apply prefix_app_r ]).
  all: try match goal with
       | |- context [collect_loop env ?t ?f (?b ++ [?p]) ?num ?w1] =>
           destruct (IH (b ++ [p]) num w1) as [added Hgrowth];
           exists (p :: added);
           eapply growth_log; [..|exact Hgrowth]
       end.
  all: cbn [stdin probe_calls clock_reads disk screen fst snd length
            timestamp room signal_dbm] in *;
       repeat first [rewrite logged_lines_ask | rewrite logged_lines_say | rewrite logged_lines_logged].
  all: try first
         [ done | lia
         | solve [etrans; [|exact Hin];
                  repeat (first [done | apply suffix_cons_r])]
         | etrans; [exact Hout|]; rewrite <- ?app_assoc; by apply prefix_app_r
         | exists n; split; [lia|done]
         | case_bool_decide; congruence ].
Qed.

Lemma run_bind {A B : Type} (m : session A) (k : A → session B) w :
  (m ≫= k) w
  = match m w with
    | (Returned v, w') => k v w'
    | (Raised e, w') => (Raised e, w')
    | (Unfinished, w') => (Unfinished, w')
    end.
Proof. reflexivity. Qed.

Ltac session_side :=
  cbn [stdin probe_calls clock_reads disk screen fst snd length];
  repeat first [rewrite logged_lines_ask | rewrite logged_lines_say
               | rewrite logged_lines_logged];
  first
    [ done | lia | discriminate
    | by intros ? [= <-]
    | solve [repeat (first [done | apply suffix_cons_r])]
    | rewrite <- ?app_assoc; by apply prefix_app_r ].

Ltac session_stop :=
  exists []; apply growth_stop; session_side.

(** The loop, for any number of turns: what it stored is what it logged. *)
Lemma collect_loop_growth turns data_file before (point_num : nat) w :
  ∃ added, growth env turns data_file before w
             (collect_loop env turns data_file before point_num w) added.
Proof.
  revert before point_num w.
  induction turns as [|turns IH]; intros before point_num w.
  { exists []. apply growth_unfinished. }
  assert (Hcontinue : ∀ w0 w1,
    stdin w1 `suffix_of` stdin w0 → (length (stdin w1) < length (stdin w0))%nat →
    screen w0 `prefix_of` screen w1 →
    logged_lines (screen w1) = logged_lines (screen w0) →
    (probe_calls w0 ≤ probe_calls w1)%nat →
    clock_reads w1 = clock_reads w0 → disk w1 = disk w0 →
    ∃ added, growth env (S turns) data_file before w0
               (collect_loop env turns data_file before point_num w1) added).
  { intros w0 w1 ? ? ? ? ? ? ?.
    destruct (IH before point_num w1) as [added Hgrowth].
    exists added. by eapply growth_continue. }
  destruct w as [inp pc cr dk sc].
  cbn [collect_loop]. rewrite run_bind. unfold input at 1.
  cbn [stdin probe_calls clock_reads disk screen].
  destruct inp as [|line inp]; [session_stop|].
  destruct (bool_decide (lower env (strip env line) = "done")) eqn:Edone;
    [unfold mret, session_ret; session_stop|].
  rewrite run_bind. unfold probe at 1.
  cbn [stdin probe_calls clock_reads disk screen].
  destruct (utilities env pc) as [[iwconfig airport] netsh] eqn:Eutil.
  destruct (get_wifi_signal_strength iwconfig airport netsh) as [signal| |] eqn:Eread;
    [ | | session_stop].
  - apply log_growth; [exact IH | try session_side..].
    exists pc. split; [simpl; lia|]. unfold probed. by rewrite Eutil.
  - rewrite run_bind. unfold say at 1, show at 1.
    cbn [stdin probe_calls clock_reads disk screen].
    rewrite run_bind. unfold input at 1.
    cbn [stdin probe_calls clock_reads disk screen].
    destruct inp as [|answer inp]; [session_stop|].
    destruct (bool_decide (lower env (strip env answer) ≠ "y")) eqn:Eretry;
      [apply Hcontinue; session_side|].
    rewrite run_bind. unfold probe at 1.
    cbn [stdin probe_calls clock_reads disk screen].
    destruct (utilities env (S pc)) as [[iwconfig' airport'] netsh'] eqn:Eutil'.
    destruct (get_wifi_signal_strength iwconfig' airport' netsh')
      as [signal| |] eqn:Eread'; [ | | session_stop].
    + apply log_growth; [exact IH | try session_side..].
      exists (S pc). split; [simpl; lia|]. unfold probed. by rewrite Eutil'.
    + rewrite run_bind. unfold say at 1, show at 1.
      cbn [stdin probe_calls clock_reads disk screen].
      apply Hcontinue; session_side.
Qed.

(** What was shown after the stretch does not change what it stored. *)
Lemma growth_screen_after turns data_file before w (r : result (list point)) w1 w2
    added :
  growth env turns data_file before w (r, w1) added →
  stdin w2 = stdin w1 → probe_calls w2 = probe_calls w1 →
  clock_reads w2 = clock_reads w1 → disk w2 = disk w1 →
  screen w1 `prefix_of` screen w2 →
  logged_lines (screen w2) = logged_lines (screen w1) →
  growth env turns data_file before w (r, w2) added.
Proof.
  unfold growth; cbn [fst snd].
  intros (Hd & Hres & Hfuel & Hin & Hlines & Hout & Hlog & Hclock & Hstamp
          & Hroom & Hprobe & Hsignal) -> -> -> -> Hout' ->.
  split_and!; try done. by etrans.
Qed.

(** What was shown before the stretch does not change it either. *)
Lemma growth_screen_before turns data_file before w0 w out added :
  growth env turns data_file before w out added →
  stdin w = stdin w0 → probe_calls w = probe_calls w0 →
  clock_reads w = clock_reads w0 → disk w = disk w0 →
  screen w0 `prefix_of` screen w →
  logged_lines (screen w) = logged_lines (screen w0) →
  growth env turns data_file before w0 out added.
Proof.
  unfold growth.
  intros (Hd & Hres & Hfuel & Hin & Hlines & Hout & Hlog & Hclock & Hstamp
          & Hroom & Hprobe & Hsignal) <- <- <- <- Hout' <-.
  split_and!; try done. by etrans.
Qed.

(** The whole of [collect_data]: it starts from the stored points, and
    the turns it grants are enough. *)
Lemma collect_data_growth data_file w :
  ∃ added,
    growth env (S (length (stdin w))) data_file (default [] (disk w !! data_file)) w
      (collect_data env data_file w) added.
Proof.
  destruct w as [inp pc cr dk sc].
  unfold collect_data.
  do 9 (rewrite run_bind; unfold say at 1, show at 1;
        cbn [stdin probe_calls clock_reads disk screen]).
  rewrite run_bind. unfold stored at 1.
  cbn [stdin probe_calls clock_reads disk screen].
  rewrite run_bind.
  set (header := (_ ++ [Say ("5. Type 'done' when finished" +:+ newline)])).
  assert (Hheader : sc `prefix_of` header ∧ logged_lines header = logged_lines sc).
  { unfold header. split; [rewrite <- ?app_assoc; by apply prefix_app_r|].
    by repeat rewrite logged_lines_say. }
  destruct Hheader as [Hprefix Hlogged]. clearbody header.
  assert (Hloop : ∀ before shown,
    header `prefix_of` shown → logged_lines shown = logged_lines header →
    ∃ added,
      growth env (S (length inp)) data_file before (World inp pc cr dk sc)
        ((turns_left ≫= λ turns,
            collect_loop env turns data_file before (S (length before))
            ≫= λ data_points,
                 say (newline +:+ "✓ Collected " +:+ pretty (length data_points)
                      +:+ " total data points");;
                 say ("✓ Data saved to " +:+ data_file);;
                 mret data_points)
           (World inp pc cr dk shown)) added).
  { intros before shown Hshown Hcount.
    rewrite run_bind. unfold turns_left at 1.
    cbn [stdin probe_calls clock_reads disk screen]. rewrite run_bind.
    destruct (collect_loop_growth (S (length inp)) data_file before
                (S (length before)) (World inp pc cr dk shown)) as [added Hgrowth].
    exists added.
    assert (Hbefore : sc `prefix_of` shown) by (by etrans).
    assert (Hsame : logged_lines shown = logged_lines sc) by (by rewrite Hcount).
    pose proof (growth_screen_before _ _ _ (World inp pc cr dk sc) _ _ _ Hgrowth
                  eq_refl eq_refl eq_refl eq_refl Hbefore Hsame) as Hfrom.
    clear Hgrowth. rename Hfrom into Hgrowth.
    destruct (collect_loop env (S (length inp)) data_file before
                (S (length before)) (World inp pc cr dk shown))
      as [[res|e|] w1]; [|exact Hgrowth..].
    rewrite run_bind. unfold say at 1, show at 1.
    cbn [stdin probe_calls clock_reads disk screen].
    rewrite run_bind. unfold say at 1, show at 1.
    cbn [stdin probe_calls clock_reads disk screen].
    unfold mret, session_ret.
    eapply growth_screen_after; [exact Hgrowth|try reflexivity..].
    - cbn [screen]. rewrite <- app_assoc. by apply prefix_app_r.
    - cbn [screen]. by rewrite !logged_lines_say. }
  destruct (dk !! data_file) as [data|]; cbn [default].
  - rewrite run_bind. unfold say at 1, show at 1.
    cbn [stdin probe_calls clock_reads disk screen].
    unfold mret at 1, session_ret at 1.
    apply Hloop; [by apply prefix_app_r | by rewrite logged_lines_say].
  - unfold mret at 1, session_ret at 1. by apply Hloop.
Qed.

(** X11: whatever ends a collection session (the word done, the end of
    the input, an exception of the probe), the dataset file holds the points
    it held before followed by the points logged, other files are untouched,
    and a file that did not exist is created only by the first logged point;
    the list returned is that same list; the loop always ends. *)
Theorem collect_data_only_appends data_file w :
  ∃ added,
    (collect_data env data_file w).1 ≠ Unfinished ∧
    disk (collect_data env data_file w).2 !! data_file
      = match added with
        | [] => disk w !! data_file
        | _ :: _ => Some (default [] (disk w !! data_file) ++ added)
        end ∧
    (∀ other, other ≠ data_file →
              disk (collect_data env data_file w).2 !! other = disk w !! other) ∧
    (∀ res, (collect_data env data_file w).1 = Returned res →
            res = default [] (disk w !! data_file) ++ added) ∧
    logged_lines (screen (collect_data env data_file w).2)
      = (logged_lines (screen w) + length added)%nat ∧
    stdin (collect_data env data_file w).2 `suffix_of` stdin w.
Proof.
  destruct (collect_data_growth data_file w) as [added Hgrowth].
  exists added. unfold growth in Hgrowth.
  destruct Hgrowth as (Hd & Hres & Hfuel & Hin & Hlines & Hout & Hlog & _).
  split_and!; [ | | | exact Hres | exact Hlog | exact Hin].
  - intros Hun. specialize (Hfuel Hun). lia.
  - rewrite Hd. destruct added; [reflexivity|]. apply lookup_insert_eq.
  - intros other Hother. rewrite Hd. destruct added; [reflexivity|].
    apply lookup_insert_ne. congruence.
Qed.

(** X12: the points a session adds to the returned list carry, in order,
    the successive readings of the clock; each signal is a reading the probe
    gave during the session; a room left empty is stored as null, never as
    an empty name; and each point took at least three typed lines. *)
Theorem logged_points_come_from_the_session data_file w res :
  (collect_data env data_file w).1 = Returned res →
  ∃ added,
    res = default [] (disk w !! data_file) ++ added ∧
    timestamp <$> added = now env <$> seq (clock_reads w) (length added) ∧
    Forall (λ p, room p ≠ Some "") added ∧
    Forall (λ p, ∃ n, (probe_calls w ≤ n
                       < probe_calls (collect_data env data_file w).2)%nat
                      ∧ probed env n (signal_dbm p)) added ∧
    (3 * length added + length (stdin (collect_data env data_file w).2)
       ≤ length (stdin w))%nat.
Proof.
  intros Hres.
  destruct (collect_data_growth data_file w) as [added Hgrowth].
  exists added. unfold growth in Hgrowth.
  destruct Hgrowth as (_ & Hadded & _ & _ & Hlines & _ & _ & _ & Hstamp & Hroom
                       & _ & Hsignal).
  split_and!; [exact (Hadded res Hres) | exact Hstamp | exact Hroom
              | exact Hsignal | exact Hlines].
Qed.

(** X14: a session whose first line is the word done returns the stored
    points and leaves the disk, the probe and the clock alone; it still ends
    on the line that says the data was saved, also when no file exists. *)
Theorem done_first_changes_nothing data_file w (line : string) (rest : list string) :
  stdin w = line :: rest → lower env (strip env line) = "done" →
  (collect_data env data_file w).1 = Returned (default [] (disk w !! data_file)) ∧
  disk (collect_data env data_file w).2 = disk w ∧
  stdin (collect_data env data_file w).2 = rest ∧
  probe_calls (collect_data env data_file w).2 = probe_calls w ∧
  clock_reads (collect_data env data_file w).2 = clock_reads w ∧
  last (screen (collect_data env data_file w).2)
    = Some (Say ("✓ Data saved to " +:+ data_file)).
Proof.
  destruct w as [inp pc cr dk sc]. cbn [stdin disk probe_calls clock_reads].
  intros -> Hdone.
  assert (Hloop : ∀ before shown,
    ∃ shown',
      (turns_left ≫= λ turns,
         collect_loop env turns data_file before (S (length before))
         ≫= λ data_points,
              say (newline +:+ "✓ Collected " +:+ pretty (length data_points)
                   +:+ " total data points");;
              say ("✓ Data saved to " +:+ data_file);;
              mret data_points)
        (World (line :: rest) pc cr dk shown)
      = (Returned before,
         World rest pc cr dk (shown' ++ [Say ("✓ Data saved to " +:+ data_file)]))).
  { intros before shown. eexists.
    rewrite run_bind. unfold turns_left at 1.
    cbn [stdin probe_calls clock_reads disk screen].
    generalize (length (line :: rest)). intros turns.
    rewrite run_bind. cbn [collect_loop]. rewrite run_bind. unfold input at 1.
    cbn [stdin probe_calls clock_reads disk screen].
    rewrite bool_decide_eq_true_2 by exact Hdone.
    unfold mret at 1, session_ret at 1.
    rewrite run_bind. unfold say at 1, show at 1.
    cbn [stdin probe_calls clock_reads disk screen].
    rewrite run_bind. unfold say at 1, show at 1.
    cbn [stdin probe_calls clock_reads disk screen].
    reflexivity. }
  assert (Hrun : ∃ shown',
    collect_data env data_file (World (line :: rest) pc cr dk sc)
    = (Returned (default [] (dk !! data_file)),
       World rest pc cr dk (shown' ++ [Say ("✓ Data saved to " +:+ data_file)]))).
  { unfold collect_data.
    do 9 (rewrite run_bind; unfold say at 1, show at 1;
          cbn [stdin probe_calls clock_reads disk screen]).
    rewrite run_bind. unfold stored at 1.
    cbn [stdin probe_calls clock_reads disk screen].
    rewrite run_bind.
    destruct (dk !! data_file) as [data|]; simpl default.
    - rewrite run_bind. unfold say at 1, show at 1.
      cbn [stdin probe_calls clock_reads disk screen].
      unfold mret at 1, session_ret at 1.
      match goal with
      | |- context [World (line :: rest) pc cr dk ?shown] =>
          destruct (Hloop data shown) as [shown' ->]
      end.
      by exists shown'.
    - unfold mret at 1, session_ret at 1.
      match goal with
      | |- context [World (line :: rest) pc cr dk ?shown] =>
          destruct (Hloop [] shown) as [shown' ->]
      end.
      by exists shown'. }
  destruct Hrun as [shown' ->].
  cbn [fst snd stdin probe_calls clock_reads disk screen].
  split_and!; try reflexivity. apply last_snoc.
Qed.

(** X15: the position prompt gives the two typed numbers, or (0, 0) as
    soon as one of them is not a number: an invalid X is not followed by the
    Y prompt, and a valid X is dropped when Y is invalid; only the end of
    the input raises; the disk, the probe and the clock are not touched. *)
Theorem manual_position_outcomes w :
  disk (get_manual_position env w).2 = disk w ∧
  probe_calls (get_manual_position env w).2 = probe_calls w ∧
  clock_reads (get_manual_position env w).2 = clock_reads w ∧
  match (get_manual_position env w).1 with
  | Returned pos =>
      ∃ first rest,
        stdin w = first :: rest ∧
        match float env first with
        | None => pos = (0%Q, 0%Q) ∧ stdin (get_manual_position env w).2 = rest
        | Some px =>
            ∃ second rest',
              rest = second :: rest' ∧
              stdin (get_manual_position env w).2 = rest' ∧
              pos = match float env second with
                    | Some py => (px, py)
                    | None => (0%Q, 0%Q)
                    end
        end
  | Raised e =>
      e = EOFError ∧ stdin (get_manual_position env w).2 = [] ∧
      (stdin w = [] ∨ ∃ first px, stdin w = [first] ∧ float env first = Some px)
  | Unfinished => False
  end.
Proof.
  destruct w as [inp pc cr dk sc].
  unfold get_manual_position, mbind, session_bind, input, say, show, mret,
    session_ret; cbn [stdin probe_calls clock_reads disk screen].
  destruct inp as [|first [|second rest]];
    cbn [stdin probe_calls clock_reads disk screen fst snd];
    try destruct (float env first) as [px|] eqn:Efirst;
    cbn [stdin probe_calls clock_reads disk screen fst snd];
    try destruct (float env second) as [py|] eqn:Esecond;
    cbn [stdin probe_calls clock_reads disk screen fst snd];
    split_and!; try reflexivity; eauto 10.
  all: eexists _, _; split; [reflexivity|]; rewrite ?Efirst; eauto 10.
  all: eexists _, _; split_and!; try reflexivity; by rewrite Esecond.
Qed.

(** How [main] starts: after its first probe, the session. *)
Lemma main_run w :
  match (let '(iwconfig, airport, netsh) := utilities env (probe_calls w) in
         get_wifi_signal_strength iwconfig airport netsh) with
  | Uncaught =>
      main env w
      = (Raised ArithmeticError,
         World (stdin w) (S (probe_calls w)) (clock_reads w) (disk w)
               (screen w ++ [Say (newline +:+ "Checking WiFi connection...")]))
  | _ =>
      ∃ shown,
        main env w
        = (collect_data env "wifi_data.json" ≫= λ _, mret ())
            (World (stdin w) (S (probe_calls w)) (clock_reads w) (disk w) shown)
  end.
Proof.
  destruct w as [inp pc cr dk sc].
  cbn [stdin probe_calls clock_reads disk screen].
  destruct (utilities env pc) as [[iwconfig airport] netsh] eqn:Eutil.
  destruct (get_wifi_signal_strength iwconfig airport netsh) as [signal| |] eqn:Eread;
    unfold main;
    rewrite run_bind; unfold say at 1, show at 1;
    cbn [stdin probe_calls clock_reads disk screen];
    rewrite run_bind; unfold probe at 1;
    cbn [stdin probe_calls clock_reads disk screen];
    rewrite Eutil, Eread.
  - rewrite run_bind. unfold say at 1, show at 1.
    cbn [stdin probe_calls clock_reads disk screen]. by eexists.
  - rewrite run_bind.
    do 2 (rewrite run_bind; unfold say at 1, show at 1;
          cbn [stdin probe_calls clock_reads disk screen]).
    unfold say at 1, show at 1.
    cbn [stdin probe_calls clock_reads disk screen]. by eexists.
  - reflexivity.
Qed.

(** X16: [main] probes once and then runs the session on wifi_data.json:
    it always ends, no other file is touched, and the points stored in
    wifi_data.json are kept in front of what the file holds afterwards; when
    that first probe raises, nothing is asked and nothing is written. *)
Theorem main_collects_into_the_default_file w :
  (main env w).1 ≠ Unfinished ∧
  (∀ other, other ≠ "wifi_data.json" →
            disk (main env w).2 !! other = disk w !! other) ∧
  default [] (disk w !! "wifi_data.json")
    `prefix_of` default [] (disk (main env w).2 !! "wifi_data.json") ∧
  (∀ iwconfig airport netsh,
      utilities env (probe_calls w) = (iwconfig, airport, netsh) →
      get_wifi_signal_strength iwconfig airport netsh = Uncaught →
      (main env w).1 = Raised ArithmeticError ∧
      stdin (main env w).2 = stdin w ∧ disk (main env w).2 = disk w).
Proof.
  pose proof (main_run w) as Hrun.
  destruct (utilities env (probe_calls w)) as [[iwconfig airport] netsh].
  destruct (get_wifi_signal_strength iwconfig airport netsh) as [signal| |] eqn:Eread.
  3: { rewrite Hrun. cbn [fst snd stdin disk].
       split_and!; [discriminate | reflexivity | reflexivity |].
       intros; split_and!; reflexivity. }
  all: destruct Hrun as [shown ->]; rewrite run_bind;
       set (w1 := World (stdin w) (S (probe_calls w)) (clock_reads w) (disk w) shown);
       destruct (collect_data_growth "wifi_data.json" w1) as [added Hgrowth];
       unfold growth in Hgrowth;
       destruct Hgrowth as (Hd & _ & Hfuel & _);
       destruct (collect_data env "wifi_data.json" w1) as [[res|e|] w2];
       cbn [fst snd] in *;
       try (exfalso; specialize (Hfuel eq_refl); lia);
       unfold mret, session_ret; cbn [fst snd];
       (split_and!;
        [ discriminate
        | intros other Hother; rewrite Hd; destruct added; [reflexivity|];
          apply lookup_insert_ne; congruence
        | rewrite Hd; destruct added; [reflexivity|];
          rewrite lookup_insert_eq; cbn [default]; by apply prefix_app_r
        | intros ? ? ? [= <- <- <-] Hraise; congruence ]).
Qed.

End SessionFacts.

Lemma kitchen_session_run :
  (Mapper.collect_data plain_env "wifi_data.json" kitchen_session).1
  = Mapper.Returned [kitchen_point].
Proof. vm_compute. reflexivity. Qed.

Lemma logged_points_come_from_the_session_witness :
  (Mapper.collect_data plain_env "wifi_data.json" kitchen_session).1
    = Mapper.Returned [kitchen_point] ∧
  ∃ added,
    [kitchen_point]
      = default [] (Mapper.disk kitchen_session !! "wifi_data.json") ++ added ∧
    timestamp <$> added
      = Mapper.now plain_env <$> seq (Mapper.clock_reads kitchen_session) (length added) ∧
    Forall (λ p, room p ≠ Some "") added ∧
    Forall (λ p, ∃ n,
              (Mapper.probe_calls kitchen_session ≤ n
               < Mapper.probe_calls
                   (Mapper.collect_data plain_env "wifi_data.json" kitchen_session).2)%nat
              ∧ probed plain_env n (signal_dbm p)) added ∧
    (3 * length added
       + length (Mapper.stdin
                   (Mapper.collect_data plain_env "wifi_data.json" kitchen_session).2)
       ≤ length (Mapper.stdin kitchen_session))%nat.
Proof.
  split; [exact kitchen_session_run|].
  exact (logged_points_come_from_the_session plain_env "wifi_data.json"
           kitchen_session [kitchen_point] kitchen_session_run).
Defined.

Lemma done_first_changes_nothing_witness :
  (Mapper.stdin (Mapper.World ["done"] 0 0 ∅ []) = "done" :: []
   ∧ Mapper.lower plain_env (Mapper.strip plain_env "done") = "done") ∧
  Mapper.disk (Mapper.collect_data plain_env "wifi_data.json"
                 (Mapper.World ["done"] 0 0 ∅ [])).2 = ∅.
Proof.
  split; [split; reflexivity|].
  apply (done_first_changes_nothing plain_env "wifi_data.json"
           (Mapper.World ["done"] 0 0 ∅ []) "done" []); reflexivity.
Defined.

Lemma zero_scale_raises_witness :
  (0 <= 0 <= 0 ∧ 0 <= 100) ∧
  Mapper.get_wifi_signal_strength
    (Mapper.Output (Mapper.IwconfigScan None (Some (0, 0))))
    Mapper.Unavailable Mapper.Unavailable = Mapper.Uncaught.
Proof.
  split; [lia|].
  apply (zero_scale_raises 0 0 Mapper.Unavailable Mapper.Unavailable); lia.
Defined.
